(** * panel/param.py: the parameter panel and the JSON initializer

    A shallow embedding of [src/panel/param.py].  Python values, exceptions,
    dictionaries and the two builtins the module relies on ([sorted] and
    [itertools.groupby]) are modelled first; [ParamPanel] and [JSONInit]
    follow the source statement by statement.

    Modelling conventions.
    - A Python exception is a value of [exn]; code that may raise returns a
      [result].  Code that also mutates an object is a function from the
      state before to a [result] paired with the state after, so that what
      was mutated before a raise stays mutated.
    - A [dict] is an association list in insertion order with unique keys.
    - Precedences and thresholds are rationals ([Q]); Python's float special
      values (nan, inf) are outside the model.
    - A global name is looked up in the module namespace; the namespace of
      this module is read off its import statements ([module_names]).
    - What the module only calls (the process environment, the JSON parser,
      the attribute system's validation, the label formatter) is a field of
      the objects passed in.
    - A widget class called with its keywords builds the widget; the
      toolkit's own checks of the keywords are not modelled.
    - The panel has its [_widget_options] dict from the start; the module
      stores into it and never creates it.
    - The names of an object's parameters are the keys of a dict, hence
      distinct; the properties that rely on it say so. *)

From Stdlib Require Import List String Ascii Bool ZArith QArith Lia DecimalString.
From Stdlib Require Import Sorting.Sorted Sorting.Permutation OrderedTypeEx.
Import ListNotations.

Local Open Scope string_scope.
Local Open Scope list_scope.
Local Set Warnings "-register-all".

(* ------------------------------------------------------------------ *)
(** ** Python values, exceptions and results *)

Module Py.

Inductive exn : Type :=
| NameError (name : string)
| UnboundLocalError (name : string)
| KeyError
| ValueError (msg : string)
| TypeError
| AttributeError
| OSError.

Inductive result (A : Type) : Type :=
| Ok (a : A)
| Raise (e : exn).
Arguments Ok {A} a.
Arguments Raise {A} e.

Definition bind {A B} (r : result A) (k : A -> result B) : result B :=
  match r with
  | Ok a => k a
  | Raise e => Raise e
  end.

Notation "x <- c1 ;; c2" := (bind c1 (fun x => c2))
  (at level 61, c1 at next level, right associativity).

Fixpoint mapM {A B} (f : A -> result B) (l : list A) : result (list B) :=
  match l with
  | [] => Ok []
  | x :: xs => y <- f x ;; ys <- mapM f xs ;; Ok (y :: ys)
  end.

(** JSON-like values; the values of attributes, of option ranges and of a
    parsed JSON document. *)
Inductive Value : Type :=
| VNone
| VBool (b : bool)
| VInt (z : Z)
| VStr (s : string)
| VList (l : list Value)
| VDict (d : list (Value * Value)).

Definition dict := list (Value * Value).

(** [hash(v)] succeeds; lists and dicts are unhashable. *)
Definition hashable (v : Value) : bool :=
  match v with
  | VList _ | VDict _ => false
  | _ => true
  end.

Definition int_of_bool (b : bool) : Z := if b then 1%Z else 0%Z.

(** [a == b] on hashable values; [True == 1] and [False == 0] hold in
    Python and make such keys collide in a dict. *)
Definition py_eq (a b : Value) : bool :=
  match a, b with
  | VNone, VNone => true
  | VBool x, VBool y => Bool.eqb x y
  | VInt x, VInt y => Z.eqb x y
  | VBool x, VInt y => Z.eqb (int_of_bool x) y
  | VInt x, VBool y => Z.eqb x (int_of_bool y)
  | VStr x, VStr y => String.eqb x y
  | _, _ => false
  end.

(** [isinstance(v, dict)], [isinstance(v, list)], [v is None]. *)
Definition is_dict (v : Value) : bool :=
  match v with VDict _ => true | _ => false end.
Definition is_list (v : Value) : bool :=
  match v with VList _ => true | _ => false end.
Definition is_None (v : Value) : bool :=
  match v with VNone => true | _ => false end.

(** *** Dictionaries *)

Fixpoint find_key (d : dict) (k : Value) : option Value :=
  match d with
  | [] => None
  | (k', v) :: d' => if py_eq k' k then Some v else find_key d' k
  end.

(** [d[k]] *)
Definition dict_get (d : dict) (k : Value) : result Value :=
  if hashable k then
    match find_key d k with
    | Some v => Ok v
    | None => Raise KeyError
    end
  else Raise TypeError.

(** [k in d] *)
Definition dict_contains (d : dict) (k : Value) : result bool :=
  if hashable k then
    Ok (match find_key d k with Some _ => true | None => false end)
  else Raise TypeError.

(** The store of [d[k] = v] once [k] is known to be hashable: an existing
    key keeps its place and its first spelling and takes the new value; a
    new key goes to the end. *)
Fixpoint store (d : dict) (k v : Value) : dict :=
  match d with
  | [] => [(k, v)]
  | (k', v') :: d' =>
      if py_eq k' k then (k', v) :: d' else (k', v') :: store d' k v
  end.

(** [d[k] = v] *)
Definition dict_set (d : dict) (k v : Value) : result dict :=
  if hashable k then Ok (store d k v) else Raise TypeError.

(** [{key(x): val(x) for x in l}]: the pairs are stored left to right. *)
Fixpoint dict_comp_from {A} (key val : A -> Value) (l : list A) (acc : dict)
  : result dict :=
  match l with
  | [] => Ok acc
  | x :: xs => acc' <- dict_set acc (key x) (val x) ;;
               dict_comp_from key val xs acc'
  end.

Definition dict_comp {A} (key val : A -> Value) (l : list A) : result dict :=
  dict_comp_from key val l [].

(** *** Lists *)

(** [l.index(x)] on a list of strings. *)
Fixpoint list_index (l : list string) (x : string) : result nat :=
  match l with
  | [] => Raise (ValueError ("'" ++ x ++ "' is not in list"))
  | y :: ys => if String.eqb y x then Ok 0%nat
               else i <- list_index ys x ;; Ok (S i)
  end.

(** [l.pop(i)]: the list that is left ([i] comes from [index], so it is in
    range). *)
Fixpoint list_pop {A} (l : list A) (i : nat) : list A :=
  match l, i with
  | [], _ => []
  | _ :: xs, O => xs
  | x :: xs, S j => x :: list_pop xs j
  end.

(** *** [sorted] and [itertools.groupby] *)

Section Sorting.
Context {A : Type}.
(** [lt a b] is Python's [a < b] on what is compared. *)
Variable lt : A -> A -> bool.

(** [x] goes before the first element that is not smaller than it. *)
Fixpoint insert (x : A) (l : list A) : list A :=
  match l with
  | [] => [x]
  | y :: ys => if lt y x then y :: insert x ys else x :: y :: ys
  end.

(** [sorted(l)]: a stable sort that only uses [<]. *)
Fixpoint sorted (l : list A) : list A :=
  match l with
  | [] => []
  | x :: xs => insert x (sorted xs)
  end.

(** [a <= b] read off [<]: [b] is not smaller than [a]. *)
Definition not_after (a b : A) : Prop := lt b a = false.
End Sorting.

Section GroupBy.
Context {A : Type}.
Variable key : A -> Q.

(** [itertools.groupby(l, key)]: the maximal runs of consecutive elements
    with equal keys, each with the key of its first element. *)
Fixpoint groupby (l : list A) : list (Q * list A) :=
  match l with
  | [] => []
  | x :: xs =>
      match groupby xs with
      | (k, g) :: rest =>
          if Qeq_bool (key x) k then (key x, x :: g) :: rest
          else (key x, [x]) :: (k, g) :: rest
      | [] => [(key x, [x])]
      end
  end.
End GroupBy.

(** *** Code that mutates: state passing with exceptions *)

Definition M (S A : Type) : Type := S -> result A * S.

Definition ret {S A} (a : A) : M S A := fun s => (Ok a, s).

Definition raise {S A} (e : exn) : M S A := fun s => (Raise e, s).

Definition lift {S A} (r : result A) : M S A := fun s => (r, s).

Definition bindM {S A B} (m : M S A) (k : A -> M S B) : M S B :=
  fun s =>
    match m s with
    | (Ok a, s') => k a s'
    | (Raise e, s') => (Raise e, s')
    end.

Notation "x <~ c1 ;; c2" := (bindM c1 (fun x => c2))
  (at level 61, c1 at next level, right associativity).

(** [[f(x) for x in l]] where [f] may mutate and may raise. *)
Fixpoint mapMS {S A B} (f : A -> M S B) (l : list A) : M S (list B) :=
  match l with
  | [] => ret []
  | x :: xs => y <~ f x ;; ys <~ mapMS f xs ;; ret (y :: ys)
  end.

(** *** Name lookup *)

(** A global name resolves when the module namespace binds it. *)
Definition resolve (G : list string) (n : string) : result unit :=
  if existsb (String.eqb n) G then Ok tt else Raise (NameError n).

End Py.

Import Py.

(* ------------------------------------------------------------------ *)
(** ** The attribute system, as far as the module looks at it *)

Module Param.

(** [type(p_obj)]: the kinds the module names, and any other kind
    ([Parameter_] is [param.Parameter]). *)
Inductive ParamType : Type :=
| Parameter_
| Dict
| Selector
| Boolean
| Number
| Integer
| Range
| ListSelector
| Date
| FileSelector
| OtherType (name : string).

(** A parameter object [p_obj].  An absent [get_range] or
    [get_soft_bounds] is [hasattr(p_obj, ...) == False]; a present
    [get_range] holds the (label, value) pairs of [get_range().items()]. *)
Record ParameterObj : Type := {
  ptype : ParamType;
  precedence : option Q;
  get_range : option dict;
  get_soft_bounds : option (Value * Value);
  isinstance_FileSelector : bool
}.

(** A parameterized object or class.  [values] holds the current value of
    each attribute; [set_check name v] is the attribute system's own
    validation of an assignment, [Some e] when it rejects with [e]. *)
Record Parameterized : Type := {
  is_type : bool;
  class_name : string;
  params : list (string * ParameterObj);
  values : list (string * Value);
  set_check : string -> Value -> option exn
}.

Fixpoint assoc {B} (l : list (string * B)) (k : string) : option B :=
  match l with
  | [] => None
  | (k', v) :: l' => if String.eqb k' k then Some v else assoc l' k
  end.

Fixpoint assoc_set {B} (l : list (string * B)) (k : string) (v : B)
  : list (string * B) :=
  match l with
  | [] => [(k, v)]
  | (k', v') :: l' =>
      if String.eqb k' k then (k', v) :: l' else (k', v') :: assoc_set l' k v
  end.

(** [obj.params(p_name)] *)
Definition params_of (obj : Parameterized) (p_name : string)
  : result ParameterObj :=
  match assoc (params obj) p_name with
  | Some p => Ok p
  | None => Raise KeyError
  end.

(** [getattr(obj, p_name)] *)
Definition getattr (obj : Parameterized) (p_name : string) : result Value :=
  match assoc (values obj) p_name with
  | Some v => Ok v
  | None => Raise AttributeError
  end.

Definition with_values (obj : Parameterized) (vs : list (string * Value))
  : Parameterized :=
  {| is_type := is_type obj; class_name := class_name obj;
     params := params obj; values := vs; set_check := set_check obj |}.

(** [setattr(obj, p_name, v)], and [obj.set_param] with the one keyword
    [p_name = v]: the attribute system validates, then stores. *)
Definition setattr (obj : Parameterized) (p_name : string) (v : Value)
  : result Parameterized :=
  match set_check obj p_name v with
  | Some e => Raise e
  | None => Ok (with_values obj (assoc_set (values obj) p_name v))
  end.

End Param.

Import Param.

(* ------------------------------------------------------------------ *)
(** ** The module namespace *)

(** The names the module binds at top level: its imports (lines 1-14) and
    its two classes. *)
Definition module_names : list string :=
  [ "itertools"; "partial"; "param"; "Div"; "Panel"; "WidgetBox";
    "default_label_formatter";
    "LiteralInput"; "Select"; "Checkbox"; "FloatSlider"; "IntSlider";
    "RangeSlider"; "MultiSelect"; "DatePicker";
    "ParamPanel"; "JSONInit" ].

(* ------------------------------------------------------------------ *)
(** ** Text built with [str.format] *)

Module Text.

(** [template.format(arg)], kept as the template and its argument. *)
Inductive t : Type :=
| format (template : string) (arg : Value).

(** [str(v)] for the values whose [str] is plain; the [str] of a list or
    of a dict is not modelled. *)
Definition str (v : Value) : option string :=
  match v with
  | VNone => Some "None"
  | VBool true => Some "True"
  | VBool false => Some "False"
  | VInt z => Some (NilZero.string_of_int (Z.to_int z))
  | VStr s => Some s
  | VList _ | VDict _ => None
  end.

(** Every ["{0}"] of the template replaced by [s]. *)
Fixpoint subst0 (template s : string) : string :=
  match template with
  | String "{" (String "0" (String "}" rest)) => s ++ subst0 rest s
  | String c rest => String c (subst0 rest s)
  | EmptyString => EmptyString
  end.

Definition render (x : t) : option string :=
  match x with
  | format template arg => option_map (subst0 template) (str arg)
  end.

End Text.

(* ------------------------------------------------------------------ *)
(** ** class ParamPanel *)

Module ParamPanel.

Inductive WidgetClass : Type :=
| LiteralInput | Select | Checkbox | FloatSlider | IntSlider
| RangeSlider | MultiSelect | DatePicker.

(** The class attribute [_mapping] (lines 43-53), a dict keyed by the type
    of the parameter object. *)
Definition _mapping (ty : ParamType) : option WidgetClass :=
  match ty with
  | Parameter_ => Some LiteralInput
  | Dict => Some LiteralInput
  | Selector => Some Select
  | Boolean => Some Checkbox
  | Number => Some FloatSlider
  | Integer => Some IntSlider
  | Range => Some RangeSlider
  | ListSelector => Some MultiSelect
  | Date => Some DatePicker
  | FileSelector => None
  | OtherType _ => None
  end.

(** [_mapping[ty]] *)
Definition mapping_get (ty : ParamType) : result WidgetClass :=
  match _mapping ty with
  | Some c => Ok c
  | None => Raise KeyError
  end.

(** The keyword arguments [kw] a widget is built from. *)
Record Kw : Type := {
  kw_value : Value;
  kw_name : string;
  kw_options : option (list (Value * Value));
  kw_start : option Value;
  kw_end : option Value
}.

(** [partial(self._apply_change, p_name)] *)
Inductive Callback : Type :=
| partial_apply_change (p_name : string).

(** A widget: its class, the keywords it was built from and the watchers
    registered on it with [param.watch]. *)
Record Widget : Type := {
  widget_class : WidgetClass;
  kw : Kw;
  watchers : list (string * string * Callback)
}.

(** What [_get_widgets] returns a list of. *)
Inductive Item : Type :=
| to_panel_Div (text : Text.t)
| widget_item (w : Widget).

(** The event a watcher receives. *)
Record Change : Type := { new : Value }.

(** [self]: the panel's parameters, the object it shows and the cache of
    option lookups ([_widget_options], a dict from attribute name to the
    label-to-value dict of that attribute). *)
Record Self : Type := {
  object : Parameterized;
  show_labels : bool;
  display_threshold : Q;
  default_precedence : Q;
  width : Z;
  label_formatter : option (string -> string);
  _widget_options : dict
}.

Definition set_object (self : Self) (obj : Parameterized) : Self :=
  {| object := obj; show_labels := show_labels self;
     display_threshold := display_threshold self;
     default_precedence := default_precedence self;
     width := width self; label_formatter := label_formatter self;
     _widget_options := _widget_options self |}.

Definition set_widget_options (self : Self) (d : dict) : Self :=
  {| object := object self; show_labels := show_labels self;
     display_threshold := display_threshold self;
     default_precedence := default_precedence self;
     width := width self; label_formatter := label_formatter self;
     _widget_options := d |}.

Definition set_kw_value (k : Kw) (v : Value) : Kw :=
  {| kw_value := v; kw_name := kw_name k; kw_options := kw_options k;
     kw_start := kw_start k; kw_end := kw_end k |}.

Definition set_kw_options (k : Kw) (o : list (Value * Value)) : Kw :=
  {| kw_value := kw_value k; kw_name := kw_name k; kw_options := Some o;
     kw_start := kw_start k; kw_end := kw_end k |}.

Definition set_kw_bounds (k : Kw) (b : Value * Value) : Kw :=
  {| kw_value := kw_value k; kw_name := kw_name k;
     kw_options := kw_options k;
     kw_start := Some (fst b); kw_end := Some (snd b) |}.

Section Methods.
(** The namespace global names are looked up in. *)
Variable G : list string.
(** What [named_objs] denotes where the namespace binds it: the module
    calls it on the (label, value) pairs of the range and unpacks each
    element of what it returns into a pair. *)
Variable named_objs : dict -> result (list (Value * Value)).

(** Lines 77-83: the reverse lookup and the value shown. *)
Definition lookup_of (options : list (Value * Value)) : result dict :=
  dict_comp snd fst options.

Definition shown_value (p_obj : ParameterObj) (lookup : dict)
           (value : Value) : result Value :=
  match value with
  | VList l => vs <- mapM (dict_get lookup) l ;; Ok (VList vs)
  | _ =>
      _ <- resolve G "param" ;;
      if isinstance_FileSelector p_obj && is_None value
      then Ok (VStr EmptyString)
      else dict_get lookup value
  end.

(** Lines 75-87: the body of the [get_range] branch. *)
Definition range_branch (p_name : string) (p_obj : ParameterObj)
           (items : dict) (kw0 : Kw) : M Self Kw :=
  _ <~ lift (resolve G "named_objs") ;;
  options <~ lift (named_objs items) ;;
  let value := kw_value kw0 in
  lookup <~ lift (lookup_of options) ;;
  shown <~ lift (shown_value p_obj lookup value) ;;
  let kw1 := set_kw_value kw0 shown in
  opt_lookup <~ lift (dict_comp fst snd options) ;;
  _ <~ (fun self =>
          match dict_set (_widget_options self) (VStr p_name)
                         (VDict opt_lookup) with
          | Ok d => (Ok tt, set_widget_options self d)
          | Raise e => (Raise e, self)
          end) ;;
  let options' := map (fun kv => (fst kv, fst kv)) options in
  ret (set_kw_options kw1 options').

(** [widget(self, p_name)] (lines 60-94). *)
Definition widget (p_name : string) : M Self Widget :=
  fun self =>
    (p_obj <~ lift (params_of (object self) p_name) ;;
     widget_class <~ lift (mapping_get (ptype p_obj)) ;;
     value <~ lift (getattr (object self) p_name) ;;
     let kw0 :=
       {| kw_value := value;
          kw_name := match label_formatter self with
                     | Some f => f p_name
                     | None => p_name
                     end;
          kw_options := None; kw_start := None; kw_end := None |} in
     kw1 <~ match get_range p_obj with
            | Some items =>
                if negb (is_dict (kw_value kw0))
                then range_branch p_name p_obj items kw0
                else ret kw0
            | None => ret kw0
            end ;;
     let kw2 := match get_soft_bounds p_obj with
                | Some b => set_kw_bounds kw1 b
                | None => kw1
                end in
     _ <~ lift (resolve G "partial") ;;
     ret {| widget_class := widget_class; kw := kw2;
            watchers := [("value", "value",
                          partial_apply_change p_name)] |}) self.

(** [_apply_change(self, p_name, change)] (lines 97-98). *)
Definition _apply_change (p_name : string) (change : Change)
  : M Self unit :=
  fun self =>
    match setattr (object self) p_name (new change) with
    | Ok obj => (Ok tt, set_object self obj)
    | Raise e => (Raise e, self)
    end.

(** Lines 103-110 of [_get_widgets]. *)
Definition key_fn (self : Self) (x : string * ParameterObj) : Q :=
  match precedence (snd x) with
  | Some q => q
  | None => default_precedence self
  end.

Definition Qltb (a b : Q) : bool := negb (Qle_bool b a).

Definition key_lt (self : Self) (x y : string * ParameterObj) : bool :=
  Qltb (key_fn self x) (key_fn self y).

(** [(k, p) < (k', p')] on tuples whose first components differ, as the
    keys of a dict do: the names decide. *)
Definition tuple_lt (x y : string * ParameterObj) : bool :=
  String.ltb (fst x) (fst y).

Definition displayed (self : Self) (x : string * ParameterObj) : bool :=
  match precedence (snd x) with
  | None => true
  | Some q => Qle_bool (display_threshold self) q
  end.

Definition sorted_precedence (self : Self) : list (string * ParameterObj) :=
  sorted (key_lt self) (params (object self)).

Definition filtered (self : Self) : list (string * ParameterObj) :=
  filter (displayed self) (sorted_precedence self).

Definition sorted_groups (self : Self)
  : list (list (string * ParameterObj)) :=
  map (fun kg => sorted tuple_lt (snd kg))
      (groupby (key_fn self) (filtered self)).

Definition ordered_params (self : Self) : list string :=
  map fst (List.concat (sorted_groups self)).

(** [_get_widgets(self)] (lines 101-116). *)
Definition _get_widgets : M Self (list Item) :=
  fun self =>
    (_ <~ lift (resolve G "itertools") ;;
     let ordered := ordered_params self in
     i <~ lift (list_index ordered "name") ;;
     let ordered := list_pop ordered i in
     _ <~ lift (resolve G "Panel") ;;
     _ <~ lift (resolve G "Div") ;;
     name <~ lift (getattr (object self) "name") ;;
     let heading := to_panel_Div (Text.format "<b>{0}</b>" name) in
     ws <~ mapMS widget ordered ;;
     ret (heading :: map widget_item ws)) self.

End Methods.

(** The attribute names the controls of a list of items are bound to, in
    the order of the list. *)
Definition control_names (out : list Item) : list string :=
  flat_map (fun it =>
              match it with
              | to_panel_Div _ => []
              | widget_item w =>
                  map (fun c => match snd c with
                                | partial_apply_change p => p
                                end) (watchers w)
              end) out.

(** Ascending key, and ascending name among equal keys. *)
Definition key_le (self : Self) (x y : string * ParameterObj) : Prop :=
  (key_fn self x <= key_fn self y)%Q.

Definition lex_lt (self : Self) (x y : string * ParameterObj) : Prop :=
  (key_fn self x < key_fn self y)%Q
  \/ ((key_fn self x == key_fn self y)%Q
      /\ String.ltb (fst x) (fst y) = true).

(** Ascending key, and names not descending among equal keys. *)
Definition lex_le (self : Self) (x y : string * ParameterObj) : Prop :=
  (key_fn self x < key_fn self y)%Q
  \/ ((key_fn self x == key_fn self y)%Q
      /\ not_after tuple_lt x y).

(** A declared precedence strictly below the threshold. *)
Definition below_threshold (self : Self) (p : ParameterObj) : Prop :=
  exists q, precedence p = Some q /\ (q < display_threshold self)%Q.

(** The pairs behind [ordered_params]. *)
Definition ordered_pairs (self : Self) : list (string * ParameterObj) :=
  List.concat (sorted_groups self).

End ParamPanel.

(* ------------------------------------------------------------------ *)
(** ** class JSONInit *)

Module JSONInit.

(** The parameters of a [JSONInit] instance. *)
Record Self : Type := {
  varname : string;
  target : option string;
  json_file : option string
}.

(** What a call reads from outside the program: [os.environ], and the JSON
    parser applied to the file at a path
    ([json.load(open(os.path.abspath(fname), 'r'))]) and to a string
    ([json.loads]). *)
Record Outside : Type := {
  environ : string -> option string;
  json_load : string -> result Value;
  json_loads : string -> result Value
}.

(** A warning: a literal message, or a template applied with [%]. *)
Inductive Msg : Type :=
| msg (s : string)
| msg_percent (template : string) (arg : Value).

(** What a call can change: the object or class it is called on, the
    warnings logged on that object and those logged on [param.main]. *)
Record State : Type := {
  parameterized : Parameterized;
  log : list Msg;
  main_log : list Msg
}.

Definition set_parameterized (st : State) (obj : Parameterized) : State :=
  {| parameterized := obj; log := log st; main_log := main_log st |}.

(** [s.endswith(suffix)] *)
Definition endswith (s suffix : string) : bool :=
  let n := String.length s in
  let m := String.length suffix in
  (m <=? n)%nat && String.eqb (substring (n - m) m s) suffix.

(** The truth value of an optional string: [None] and [''] are false. *)
Definition truthy (s : option string) : bool :=
  match s with
  | Some s' => negb (String.eqb s' EmptyString)
  | None => false
  end.

(** Reading a local variable that may not have been assigned. *)
Definition read_local {A} (name : string) (x : option A) : result A :=
  match x with
  | Some a => Ok a
  | None => Raise (UnboundLocalError name)
  end.

Section Call.
(** The namespace global names are looked up in. *)
Variable G : list string.
Variable W : Outside.
Variable self : Self.

(** [warnobj.warning(m)]; [warnobj] is [param.main] for a class. *)
Definition warning (to_main : bool) (m : Msg) : M State unit :=
  fun st =>
    if to_main
    then (Ok tt, {| parameterized := parameterized st; log := log st;
                    main_log := main_log st ++ [m] |})
    else (Ok tt, {| parameterized := parameterized st;
                    log := log st ++ [m];
                    main_log := main_log st |}).

(** Lines 165-169.  The result is the binding of the local [spec] after
    the statement.  In the handler [spec] has not been assigned: the
    assignment of line 167 is what failed.  [os.path.abspath(None)] is a
    [TypeError]. *)
Definition load_file (to_main : bool) (env_var : option string)
  : M State (option Value) :=
  fun st =>
    let spec : option Value := None in
    match (let fname := if truthy (json_file self)
                        then json_file self else env_var in
           _ <- resolve G "json" ;;
           _ <- resolve G "os" ;;
           match fname with
           | Some f => json_load W f
           | None => Raise TypeError
           end) with
    | Ok v => (Ok (Some v), st)
    | Raise _ =>
        (v <~ lift (read_local "spec" spec) ;;
         _ <~ warning to_main
                (msg_percent "Could not load JSON file %r" v) ;;
         ret spec) st
    end.

(** [parameterized.set_param] with the one keyword [name = value]; a
    keyword has to be a string. *)
Definition set_param (name value : Value) : M State unit :=
  fun st =>
    match name with
    | VStr n =>
        match setattr (parameterized st) n value with
        | Ok obj => (Ok tt, set_parameterized st obj)
        | Raise e => (Raise e, st)
        end
    | _ => (Raise TypeError, st)
    end.

(** Lines 182-186: the loop over the pairs. *)
Fixpoint set_params (to_main : bool) (items : dict) : M State unit :=
  match items with
  | [] => ret tt
  | (name, value) :: rest =>
      fun st =>
        match set_param name value st with
        | (Ok _, st') => set_params to_main rest st'
        | (Raise (ValueError m), st') =>
            (_ <~ warning to_main (msg m) ;;
             set_params to_main rest) st'
        | (Raise e, st') => (Raise e, st')
        end
  end.

(** [params.items()] *)
Definition items (v : Value) : result dict :=
  match v with
  | VDict d => Ok d
  | _ => Raise AttributeError
  end.

(** Lines 164-171: the local [spec] after the statement. *)
Definition read_spec (to_main : bool) (env_var : option string)
  : M State (option Value) :=
  if truthy (json_file self) then load_file to_main env_var
  else match env_var with
       | None => raise AttributeError
       | Some s =>
           if endswith s ".json" then load_file to_main env_var
           else _ <~ lift (resolve G "json") ;;
                v <~ lift (json_loads W s) ;;
                ret (Some v)
       end.

(** Lines 173-186. *)
Definition apply_spec (to_main : bool) (target : string) (spec : Value)
  : M State unit :=
  match spec with
  | VDict d =>
      found <~ lift (dict_contains d (VStr target)) ;;
      params <~ lift (if found : bool
                      then dict_get d (VStr target)
                      else Ok spec) ;;
      its <~ lift (items params) ;;
      set_params to_main its
  | _ =>
      warning to_main
        (msg "JSON parameter specification must be a dictionary.")
  end.

(** [__call__(self, parameterized)] (lines 153-186). *)
Definition __call__ : M State unit :=
  fun st =>
    (to_main <~ (if is_type (parameterized st)
                 then _ <~ lift (resolve G "param") ;; ret true
                 else ret false) ;;
     let target :=
       match target self with
       | Some t => t
       | None => class_name (parameterized st)
       end in
     _ <~ lift (resolve G "os") ;;
     let env_var := environ W (varname self) in
     match env_var, json_file self with
     | None, None => ret tt
     | _, _ =>
         spec <~ read_spec to_main env_var ;;
         spec <~ lift (read_local "spec" spec) ;;
         apply_spec to_main target spec
     end) st.

End Call.

End JSONInit.

(* ------------------------------------------------------------------ *)
(** ** Concrete objects used in the examples *)

Module Examples.
Import ParamPanel.

(** Modelled from the spec: [named_objs] is not defined in this module and
    no import binds it; the spec has the options built "from the range's
    (label, value) pairs", so where a namespace binds the name it denotes
    the function that hands the pairs on. *)
Definition named_objs_spec (items : dict) : result (list (Value * Value)) :=
  Ok items.

(** The namespace the module would have with the missing imports added. *)
Definition completed_names : list string :=
  "os" :: "json" :: "named_objs" :: module_names.

Definition plain (ty : ParamType) (prec : option Q) : ParameterObj :=
  {| ptype := ty; precedence := prec; get_range := None;
     get_soft_bounds := None; isinstance_FileSelector := false |}.

Definition with_items (ty : ParamType) (prec : option Q) (items : dict)
  : ParameterObj :=
  {| ptype := ty; precedence := prec; get_range := Some items;
     get_soft_bounds := None; isinstance_FileSelector := false |}.

Definition accept_all (name : string) (v : Value) : option exn := None.

Definition panel_of (obj : Parameterized) : Self :=
  {| object := obj; show_labels := true; display_threshold := 0;
     default_precedence := 1 # 100000000; width := 300;
     label_formatter := None; _widget_options := [] |}.

(** An object with a [Selector] whose range is [{"Low": 1, "High": 2}] and
    whose value is 2. *)
Definition low_high : dict := [(VStr "Low", VInt 1); (VStr "High", VInt 2)].

Definition obj_level : Parameterized :=
  {| is_type := false; class_name := "Demo";
     params := [("name", plain (OtherType "String") None);
                ("level", with_items Selector None low_high)];
     values := [("name", VStr "Demo00001"); ("level", VInt 2)];
     set_check := accept_all |}.

(** An object with a [FileSelector], a kind with a range and without an
    entry in [_mapping]. *)
Definition obj_file : Parameterized :=
  {| is_type := false; class_name := "Demo";
     params := [("name", plain (OtherType "String") None);
                ("path",
                 {| ptype := FileSelector; precedence := None;
                    get_range := Some [(VStr "a.txt", VStr "a.txt")];
                    get_soft_bounds := None;
                    isinstance_FileSelector := true |})];
     values := [("name", VStr "Demo00001"); ("path", VStr "a.txt")];
     set_check := accept_all |}.

(** Two labels for one value, and an object with such a range. *)
Definition two_labels : list (Value * Value) :=
  [(VStr "A", VInt 1); (VStr "B", VInt 1)].

Definition obj_two_labels : Parameterized :=
  {| is_type := false; class_name := "Demo";
     params := [("name", plain (OtherType "String") None);
                ("choice", with_items Selector None two_labels)];
     values := [("name", VStr "Demo00001"); ("choice", VInt 1)];
     set_check := accept_all |}.

(** An object whose attribute system only accepts integers for ["p1"]. *)
Definition int_only (name : string) (v : Value) : option exn :=
  if String.eqb name "p1"
  then match v with
       | VInt _ => None
       | _ => Some (ValueError "p1 must be an integer")
       end
  else None.

Definition obj_p : Parameterized :=
  {| is_type := false; class_name := "MyClass";
     params := [("name", plain (OtherType "String") None);
                ("p1", plain Integer None);
                ("p2", plain Integer None)];
     values := [("name", VStr "MyClass00001"); ("p1", VInt 0);
                ("p2", VInt 0)];
     set_check := int_only |}.

(** An object whose parameters are enumerated out of order, with declared
    and undeclared precedences; [c] is below the default threshold of 0. *)
Definition obj_prec : Parameterized :=
  {| is_type := false; class_name := "Prec";
     params := [("d", plain Integer (Some 2));
                ("name", plain (OtherType "String") None);
                ("c", plain Boolean (Some (-1 # 1)));
                ("b", plain Number None);
                ("a", plain Integer (Some 2))];
     values := [("name", VStr "Prec00001"); ("a", VInt 1); ("b", VInt 2);
                ("c", VBool true); ("d", VInt 4)];
     set_check := accept_all |}.

(** An object that only has its name. *)
Definition obj_bare : Parameterized :=
  {| is_type := false; class_name := "Bare";
     params := [("name", plain (OtherType "String") None)];
     values := [("name", VStr "Bare00001")];
     set_check := accept_all |}.

(** What [_get_widgets] returns for [obj_prec] and for [obj_bare]. *)
Definition items_of (obj : Parameterized) : list Item :=
  match fst (_get_widgets module_names named_objs_spec (panel_of obj)) with
  | Ok out => out
  | Raise _ => []
  end.

Definition out_prec : list Item := Eval vm_compute in items_of obj_prec.
Definition out_bare : list Item := Eval vm_compute in items_of obj_bare.

Definition st_p : JSONInit.State :=
  {| JSONInit.parameterized := obj_p; JSONInit.log := [];
     JSONInit.main_log := [] |}.

Definition json_init : JSONInit.Self :=
  {| JSONInit.varname := "PARAM_JSON_INIT"; JSONInit.target := None;
     JSONInit.json_file := None |}.

(** Nothing can be loaded or parsed. *)
Definition no_loader (s : string) : result Value := Raise OSError.
Definition no_parser (s : string) : result Value :=
  Raise (ValueError "Expecting value").

(** The variable is unset. *)
Definition outside_unset : JSONInit.Outside :=
  {| JSONInit.environ := fun _ => None;
     JSONInit.json_load := no_loader; JSONInit.json_loads := no_parser |}.

(** The variable names a file that cannot be loaded. *)
Definition outside_missing_file : JSONInit.Outside :=
  {| JSONInit.environ :=
       fun n => if String.eqb n "PARAM_JSON_INIT"
                then Some "missing.json" else None;
     JSONInit.json_load := no_loader; JSONInit.json_loads := no_parser |}.

(** The variable holds text that is not JSON. *)
Definition outside_not_json : JSONInit.Outside :=
  {| JSONInit.environ :=
       fun n => if String.eqb n "PARAM_JSON_INIT"
                then Some "{p1: 5" else None;
     JSONInit.json_load := no_loader; JSONInit.json_loads := no_parser |}.

(** A double quote, and a word between double quotes. *)
Definition dq : string := String (ascii_of_nat 34) EmptyString.
Definition quoted (s : string) : string := dq ++ s ++ dq.

(** The JSON text of a dict with the keys p1 (the string x) and p2 (7),
    and a parser that knows this one text. *)
Definition text_p1_p2 : string :=
  "{" ++ quoted "p1" ++ ": " ++ quoted "x" ++ ", "
      ++ quoted "p2" ++ ": 7}".

Definition parse_p1_p2 (s : string) : result Value :=
  if String.eqb s text_p1_p2
  then Ok (VDict [(VStr "p1", VStr "x"); (VStr "p2", VInt 7)])
  else Raise (ValueError "Expecting value").

(** The variable holds that text. *)
Definition outside_p1_p2 : JSONInit.Outside :=
  {| JSONInit.environ :=
       fun n => if String.eqb n "PARAM_JSON_INIT"
                then Some text_p1_p2 else None;
     JSONInit.json_load := no_loader;
     JSONInit.json_loads := parse_p1_p2 |}.

End Examples.

(* ------------------------------------------------------------------ *)
(** ** Reading a list of (label, value) pairs *)

Module Labels.

(** The label of the first pair whose value equals [v]. *)
Fixpoint first_label (options : list (Value * Value)) (v : Value)
  : option Value :=
  match options with
  | [] => None
  | (k, v') :: rest => if py_eq v' v then Some k else first_label rest v
  end.

(** The label of the last pair whose value equals [v]. *)
Fixpoint last_label (options : list (Value * Value)) (v : Value)
  : option Value :=
  match options with
  | [] => None
  | (k, v') :: rest =>
      match last_label rest v with
      | Some l => Some l
      | None => if py_eq v' v then Some k else None
      end
  end.

End Labels.

(* ------------------------------------------------------------------ *)
(** ** Reading the settings of a JSONInit call *)

Module Settings.

(** The value of the last pair named [n] that the attribute system
    accepts. *)
Fixpoint last_accepted (check : string -> Value -> option exn)
         (items : dict) (n : string) : option Value :=
  match items with
  | [] => None
  | (VStr k, v) :: rest =>
      match last_accepted check rest n with
      | Some x => Some x
      | None =>
          if String.eqb k n
          then match check k v with
               | None => Some v
               | Some _ => None
               end
          else None
      end
  | _ :: rest => last_accepted check rest n
  end.

(** The texts of the [ValueError]s the attribute system answers the pairs
    with, in the order of the pairs. *)
Fixpoint rejections (check : string -> Value -> option exn) (items : dict)
  : list JSONInit.Msg :=
  match items with
  | [] => []
  | (VStr k, v) :: rest =>
      match check k v with
      | Some (ValueError m) => JSONInit.msg m :: rejections check rest
      | _ => rejections check rest
      end
  | _ :: rest => rejections check rest
  end.

(** Every key is a string. *)
Definition string_keys (items : dict) : bool :=
  forallb (fun kv => match fst kv with VStr _ => true | _ => false end)
          items.

(** The attribute system only rejects with a [ValueError]. *)
Definition only_ValueError (check : string -> Value -> option exn) : Prop :=
  forall n v e, check n v = Some e -> exists m, e = ValueError m.

(** What a call has to parse and how the parser answers: the file named by
    a non-empty [json_file], else the file named by a variable that ends
    in [.json], else the text of the variable. *)
Definition parsed (W : JSONInit.Outside) (self : JSONInit.Self)
  : option (result Value) :=
  if JSONInit.truthy (JSONInit.json_file self)
  then option_map (JSONInit.json_load W) (JSONInit.json_file self)
  else match JSONInit.environ W (JSONInit.varname self) with
       | Some s => Some (if JSONInit.endswith s ".json"
                         then JSONInit.json_load W s
                         else JSONInit.json_loads W s)
       | None => None
       end.

(** Whether what is parsed is a file. *)
Definition from_file (W : JSONInit.Outside) (self : JSONInit.Self) : bool :=
  JSONInit.truthy (JSONInit.json_file self)
  || match JSONInit.environ W (JSONInit.varname self) with
     | Some s => JSONInit.endswith s ".json"
     | None => false
     end.

(** The key looked for in the parsed dict (line 159). *)
Definition target_key (self : JSONInit.Self) (st : JSONInit.State)
  : string :=
  match JSONInit.target self with
  | Some t => t
  | None => class_name (JSONInit.parameterized st)
  end.

(** [st'] is [st] with other values and with warnings added to one log:
    that of [param.main] for a class, that of the object otherwise. *)
Definition settled (st st' : JSONInit.State) : Prop :=
  let obj := JSONInit.parameterized st in
  let obj' := JSONInit.parameterized st' in
  is_type obj' = is_type obj
  /\ class_name obj' = class_name obj
  /\ params obj' = params obj
  /\ set_check obj' = set_check obj
  /\ exists added,
       if is_type obj
       then JSONInit.main_log st' = JSONInit.main_log st ++ added
            /\ JSONInit.log st' = JSONInit.log st
       else JSONInit.log st' = JSONInit.log st ++ added
            /\ JSONInit.main_log st' = JSONInit.main_log st.

End Settings.

(* ------------------------------------------------------------------ *)
(** ** Further concrete objects *)

Module Cases.
Import ParamPanel.
Import Examples.

(** The class [MyClass] itself as the target of a call. *)
Definition st_class : JSONInit.State :=
  {| JSONInit.parameterized :=
       {| is_type := true; class_name := "MyClass";
          params := params obj_p; values := values obj_p;
          set_check := int_only |};
     JSONInit.log := []; JSONInit.main_log := [] |}.

(** An outside whose variable holds [text], parsed to [v]. *)
Definition outside_text (text : string) (v : Value) : JSONInit.Outside :=
  {| JSONInit.environ :=
       fun n => if String.eqb n "PARAM_JSON_INIT" then Some text else None;
     JSONInit.json_load := no_loader;
     JSONInit.json_loads :=
       fun s => if String.eqb s text then Ok v
                else Raise (ValueError "Expecting value") |}.

(** A list as the root of the document. *)
Definition outside_list : JSONInit.Outside :=
  outside_text "[1, 2]" (VList [VInt 1; VInt 2]).

(** A dict with a key for [MyClass] and a key for another class. *)
Definition nested : dict :=
  [(VStr "MyClass", VDict [(VStr "p1", VInt 5)]);
   (VStr "Other", VDict [(VStr "p1", VInt 9)])].

Definition outside_nested : JSONInit.Outside :=
  outside_text
    ("{" ++ quoted "MyClass" ++ ": {" ++ quoted "p1" ++ ": 5}, "
         ++ quoted "Other" ++ ": {" ++ quoted "p1" ++ ": 9}}")
    (VDict nested).

(** A dict without a key for the class. *)
Definition outside_flat : JSONInit.Outside :=
  outside_text ("{" ++ quoted "p1" ++ ": 5}") (VDict [(VStr "p1", VInt 5)]).

(** An instance whose [json_file] is set. *)
Definition json_init_file : JSONInit.Self :=
  {| JSONInit.varname := "PARAM_JSON_INIT"; JSONInit.target := None;
     JSONInit.json_file := Some "settings.json" |}.

(** Two values under one label, and labels of which two hold equal
    values. *)
Definition one_label_two_values : list (Value * Value) :=
  [(VStr "A", VInt 1); (VStr "A", VInt 2)].

Definition three_labels : list (Value * Value) :=
  [(VStr "A", VInt 1); (VStr "B", VInt 2); (VStr "C", VInt 1)].

(** An object with a [ListSelector] over [low_high] whose value is the
    list of both values, high first. *)
Definition obj_multi : Parameterized :=
  {| is_type := false; class_name := "Demo";
     params := [("name", plain (OtherType "String") None);
                ("levels", with_items ListSelector None low_high)];
     values := [("name", VStr "Demo00001");
                ("levels", VList [VInt 2; VInt 1])];
     set_check := accept_all |}.

(** [obj_level] with a value outside its range. *)
Definition obj_level_out : Parameterized :=
  with_values obj_level [("name", VStr "Demo00001"); ("level", VInt 3)].

(** A real-valued attribute with soft bounds 0 and 10. *)
Definition obj_bounded : Parameterized :=
  {| is_type := false; class_name := "Demo";
     params := [("name", plain (OtherType "String") None);
                ("x", {| ptype := Number; precedence := None;
                         get_range := None;
                         get_soft_bounds := Some (VInt 0, VInt 10);
                         isinstance_FileSelector := false |})];
     values := [("name", VStr "Demo00001"); ("x", VInt 3)];
     set_check := accept_all |}.

End Cases.

(* ------------------------------------------------------------------ *)
(** ** _get_model and _get_root *)

Module Render.
Import ParamPanel.

Section Render.
(** The handles of the rendering toolkit (document, root, parent,
    communication channel) and the model it builds. *)
Variable Handle : Type.
Variable Model : Type.
(** [WidgetBox] applied to the panels, then [_get_model] of that box. *)
Variable box_get_model :
  list Item -> Handle -> option Handle -> option Handle -> option Handle ->
  result Model.
Variable G : list string.
Variable named_objs : dict -> result (list (Value * Value)).

(** [_get_model(self, doc, root=None, parent=None, comm=None)]
    (lines 118-120). *)
Definition _get_model (doc : Handle) (root parent comm : option Handle)
  : M Self Model :=
  panels <~ _get_widgets G named_objs ;;
  _ <~ lift (resolve G "WidgetBox") ;;
  lift (box_get_model panels doc root parent comm).

(** [_get_root(self, doc, comm=None)] (lines 122-123). *)
Definition _get_root (doc : Handle) (comm : option Handle)
  : M Self Model :=
  _get_model doc None None comm.
End Render.

(** [self] with other values of [show_labels] and [width]. *)
Definition with_layout (self : Self) (labels : bool) (w : Z) : Self :=
  {| object := object self; show_labels := labels;
     display_threshold := display_threshold self;
     default_precedence := default_precedence self;
     width := w; label_formatter := label_formatter self;
     _widget_options := _widget_options self |}.

End Render.

(* ------------------------------------------------------------------ *)
(** ** Reading the options of a range *)

Module Options.

(** The value of the last pair whose label equals [k]. *)
Fixpoint last_value (options : list (Value * Value)) (k : Value)
  : option Value :=
  match options with
  | [] => None
  | (k', v) :: rest =>
      match last_value rest k with
      | Some x => Some x
      | None => if py_eq k' k then Some v else None
      end
  end.

(** No two pairs have equal labels. *)
Fixpoint distinct_labels (options : list (Value * Value)) : bool :=
  match options with
  | [] => true
  | (k, _) :: rest =>
      negb (existsb (fun kv => py_eq (fst kv) k) rest)
      && distinct_labels rest
  end.

(** Labels and values can all be keys of a dict. *)
Definition all_hashable (options : list (Value * Value)) : bool :=
  forallb (fun kv => hashable (fst kv) && hashable (snd kv)) options.

(** The keywords and the widget that lines 67-94 build for the shown
    value [shown] and the options [options]. *)
Definition built (self : ParamPanel.Self) (p_name : string)
           (p_obj : ParameterObj) (c : ParamPanel.WidgetClass)
           (shown : Value) (options : option (list (Value * Value)))
  : ParamPanel.Widget :=
  {| ParamPanel.widget_class := c;
     ParamPanel.kw :=
       {| ParamPanel.kw_value := shown;
          ParamPanel.kw_name :=
            match ParamPanel.label_formatter self with
            | Some f => f p_name
            | None => p_name
            end;
          ParamPanel.kw_options := options;
          ParamPanel.kw_start := option_map fst (get_soft_bounds p_obj);
          ParamPanel.kw_end := option_map snd (get_soft_bounds p_obj) |};
     ParamPanel.watchers :=
       [("value", "value", ParamPanel.partial_apply_change p_name)] |}.

End Options.

(* ------------------------------------------------------------------ *)
(** * Properties *)

Import ParamPanel.
Import Examples.

(** ** Name lookup in the module namespace *)

Lemma resolve_os : resolve module_names "os" = Raise (NameError "os").
Proof. reflexivity. Qed.

Lemma resolve_named_objs :
  resolve module_names "named_objs" = Raise (NameError "named_objs").
Proof. reflexivity. Qed.

Lemma resolve_param : resolve module_names "param" = Ok tt.
Proof. reflexivity. Qed.

Lemma resolve_partial : resolve module_names "partial" = Ok tt.
Proof. reflexivity. Qed.

(** ** JSONInit *)

Section JSONInitFacts.
Variable W : JSONInit.Outside.
Variable self : JSONInit.Self.

(** With the namespace of the module, a call stops at line 161. *)
Lemma call_unbound_os (st : JSONInit.State) :
  JSONInit.__call__ module_names W self st = (Raise (NameError "os"), st).
Proof.
  unfold JSONInit.__call__, bindM, lift, ret.
  destruct (is_type (JSONInit.parameterized st)); reflexivity.
Qed.

(** The handler of line 169 reads [spec], which line 167 failed to
    assign: when the file cannot be loaded the handler itself raises, and
    no warning is logged. *)
Lemma load_file_cases (G : list string) (to_main : bool)
      (env_var : option string) (st : JSONInit.State) :
  (exists v, JSONInit.load_file G W self to_main env_var st
             = (Ok (Some v), st)) \/
  JSONInit.load_file G W self to_main env_var st
    = (Raise (UnboundLocalError "spec"), st).
Proof.
  unfold JSONInit.load_file.
  match goal with
  | |- context [match ?r with Ok _ => _ | Raise _ => _ end] =>
      destruct r as [v | e]
  end.
  - left. exists v. reflexivity.
  - right. reflexivity.
Qed.

(** A pair the attribute system rejects with a [ValueError] is logged and
    the loop goes on with the pairs that are left. *)
Lemma set_params_rejected (to_main : bool) (n : string) (v : Value)
      (rest : dict) (m : string) (st : JSONInit.State) :
  set_check (JSONInit.parameterized st) n v = Some (ValueError m) ->
  JSONInit.set_params to_main ((VStr n, v) :: rest) st
  = JSONInit.set_params to_main rest
      (snd (JSONInit.warning to_main (JSONInit.msg m) st)).
Proof.
  intros H. simpl. unfold JSONInit.set_param, setattr. rewrite H.
  unfold bindM. destruct to_main; reflexivity.
Qed.

(** A pair the attribute system accepts is stored and the loop goes on. *)
Lemma set_params_accepted (to_main : bool) (n : string) (v : Value)
      (rest : dict) (st : JSONInit.State) :
  set_check (JSONInit.parameterized st) n v = None ->
  JSONInit.set_params to_main ((VStr n, v) :: rest) st
  = JSONInit.set_params to_main rest
      (JSONInit.set_parameterized st
         (with_values (JSONInit.parameterized st)
            (assoc_set (values (JSONInit.parameterized st)) n v))).
Proof.
  intros H. simpl. unfold JSONInit.set_param, setattr. rewrite H.
  reflexivity.
Qed.
End JSONInitFacts.

(** With the missing imports supplied, a rejected pair is logged and the
    pair after it is still applied. *)
Example call_partial_application :
  JSONInit.__call__ completed_names outside_p1_p2 json_init st_p
  = (Ok tt,
     {| JSONInit.parameterized :=
          with_values obj_p [("name", VStr "MyClass00001");
                             ("p1", VInt 0); ("p2", VInt 7)];
        JSONInit.log := [JSONInit.msg "p1 must be an integer"];
        JSONInit.main_log := [] |}).
Proof. reflexivity. Qed.

(** C1 (the code departs from the claim).  A call of JSONInit whose
    environment variable names a file that cannot be loaded raises: in the
    module as written the name [os] is unbound (line 161); with the missing
    imports supplied the handler of line 169 raises on the unassigned
    [spec], and text that is not JSON makes [json.loads] raise outside any
    handler (line 171). *)
Theorem C1_call_raises :
  JSONInit.__call__ module_names outside_missing_file json_init st_p
  = (Raise (NameError "os"), st_p)
  /\ JSONInit.__call__ completed_names outside_missing_file json_init st_p
     = (Raise (UnboundLocalError "spec"), st_p)
  /\ JSONInit.__call__ completed_names outside_not_json json_init st_p
     = (Raise (ValueError "Expecting value"), st_p).
Proof. repeat split; reflexivity. Qed.

(** C2 (the code departs from the claim).  With the variable unset and no
    [json_file], the call raises on the unbound name [os] instead of
    returning; nothing is changed or logged.  In a namespace that binds
    [os] and [param] the same call returns and leaves the state as it
    was. *)
Theorem C2_unset_call (W : JSONInit.Outside) (self : JSONInit.Self)
        (st : JSONInit.State) :
  JSONInit.environ W (JSONInit.varname self) = None ->
  JSONInit.json_file self = None ->
  JSONInit.__call__ module_names W self st = (Raise (NameError "os"), st)
  /\ (forall G, resolve G "os" = Ok tt -> resolve G "param" = Ok tt ->
                JSONInit.__call__ G W self st = (Ok tt, st)).
Proof.
  intros Henv Hfile. split.
  - apply call_unbound_os.
  - intros G Hos Hparam.
    unfold JSONInit.__call__, bindM, lift, ret.
    rewrite Hos, Hparam, Henv, Hfile.
    destruct (is_type (JSONInit.parameterized st)); reflexivity.
Qed.

Lemma C2_unset_call_witness :
  JSONInit.__call__ module_names outside_unset json_init st_p
  = (Raise (NameError "os"), st_p)
  /\ (forall G, resolve G "os" = Ok tt -> resolve G "param" = Ok tt ->
                JSONInit.__call__ G outside_unset json_init st_p
                = (Ok tt, st_p)).
Proof.
  apply (C2_unset_call outside_unset json_init st_p); reflexivity.
Defined.

(** ** widget *)

Section WidgetFacts.
Variable named_objs : dict -> result (list (Value * Value)).

(** A kind without an entry in [_mapping] stops [widget] at line 64. *)
Lemma widget_unmapped (G : list string) (self : Self) (p_name : string)
      (p_obj : ParameterObj) :
  params_of (object self) p_name = Ok p_obj ->
  _mapping (ptype p_obj) = None ->
  widget G named_objs p_name self = (Raise KeyError, self).
Proof.
  intros Hp Hm. unfold widget, bindM, lift, mapping_get.
  rewrite Hp, Hm. reflexivity.
Qed.

(** Whatever [widget] returns was built from the mapped class and is
    watched by the relay of this attribute. *)
Lemma widget_returns (G : list string) (self self' : Self)
      (p_name : string) (w : Widget) :
  widget G named_objs p_name self = (Ok w, self') ->
  exists p_obj,
    params_of (object self) p_name = Ok p_obj
    /\ _mapping (ptype p_obj) = Some (widget_class w)
    /\ watchers w = [("value", "value", partial_apply_change p_name)].
Proof.
  unfold widget, bindM, lift, ret, mapping_get.
  destruct (params_of (object self) p_name) as [p_obj | e];
    [ | discriminate ].
  destruct (_mapping (ptype p_obj)) as [c | ] eqn:Hm; [ | discriminate ].
  destruct (getattr (object self) p_name) as [v | e]; [ | discriminate ].
  match goal with
  | |- context [match ?m self with _ => _ end] =>
      destruct (m self) as [[kw1 | e] s1]
  end; [ | discriminate ].
  destruct (resolve G "partial") as [u | e]; [ | discriminate ].
  intros H. injection H as Hw Hs. subst w.
  exists p_obj. cbn. repeat split; auto.
Qed.

(** An attribute without a range, or whose value is a dict, skips lines
    75-87; with a mapped kind its widget is built. *)
Lemma widget_without_range (self : Self) (p_name : string)
      (p_obj : ParameterObj) (c : WidgetClass) (v : Value) :
  params_of (object self) p_name = Ok p_obj ->
  _mapping (ptype p_obj) = Some c ->
  getattr (object self) p_name = Ok v ->
  get_range p_obj = None \/ is_dict v = true ->
  exists w, widget module_names named_objs p_name self = (Ok w, self)
            /\ widget_class w = c /\ kw_value (kw w) = v.
Proof.
  intros Hp Hm Hv Hr. unfold widget, bindM, lift, ret, mapping_get.
  rewrite Hp, Hm, Hv. cbn [kw_value].
  destruct (get_range p_obj) as [items | ].
  - destruct Hr as [Hr | Hr]; [ discriminate | ]. rewrite Hr. cbn.
    eexists. split; [ reflexivity | ].
    destruct (get_soft_bounds p_obj); auto.
  - cbn. eexists. split; [ reflexivity | ].
    destruct (get_soft_bounds p_obj); auto.
Qed.

(** With the namespace of the module, an attribute of a mapped kind with
    a range and a value that is not a dict stops at line 75. *)
Lemma widget_unbound_named_objs (self : Self) (p_name : string)
      (p_obj : ParameterObj) (c : WidgetClass) (items : dict)
      (v : Value) :
  params_of (object self) p_name = Ok p_obj ->
  _mapping (ptype p_obj) = Some c ->
  get_range p_obj = Some items ->
  getattr (object self) p_name = Ok v ->
  is_dict v = false ->
  widget module_names named_objs p_name self
  = (Raise (NameError "named_objs"), self).
Proof.
  intros Hp Hm Hr Hv Hd. unfold widget, bindM, lift, mapping_get.
  rewrite Hp, Hm, Hv, Hr. cbn [kw_value]. rewrite Hd.
  reflexivity.
Qed.
End WidgetFacts.

(** C3 (as amended).  Every call of JSONInit raises the unbound-name error
    for [os] and leaves the state as it was; [widget] raises the
    unbound-name error for [named_objs] for every attribute whose kind has
    an entry in [_mapping], which has a range and whose value is not a
    dict. *)
Theorem C3_unbound_names :
  (forall W self st,
      JSONInit.__call__ module_names W self st
      = (Raise (NameError "os"), st))
  /\ resolve module_names "json" = Raise (NameError "json")
  /\ (forall named_objs self p_name p_obj c items v,
         params_of (object self) p_name = Ok p_obj ->
         _mapping (ptype p_obj) = Some c ->
         get_range p_obj = Some items ->
         getattr (object self) p_name = Ok v ->
         is_dict v = false ->
         widget module_names named_objs p_name self
         = (Raise (NameError "named_objs"), self)).
Proof.
  split; [ | split ].
  - intros. apply call_unbound_os.
  - reflexivity.
  - intros. eapply widget_unbound_named_objs; eassumption.
Qed.

Lemma C3_unbound_names_witness :
  widget module_names named_objs_spec "level" (panel_of obj_level)
  = (Raise (NameError "named_objs"), panel_of obj_level).
Proof.
  apply (proj2 (proj2 C3_unbound_names) named_objs_spec (panel_of obj_level)
           "level" (with_items Selector None low_high) Select low_high
           (VInt 2)); reflexivity.
Defined.

(** C3 as stated fails: a [FileSelector] attribute has a range and a value
    that is not a dict, and [widget] raises the lookup error of line 64,
    not an unbound-name error. *)
Lemma C3_unmapped_kind_counterexample :
  ~ (forall named_objs self p_name p_obj items v,
        params_of (object self) p_name = Ok p_obj ->
        get_range p_obj = Some items ->
        getattr (object self) p_name = Ok v ->
        is_dict v = false ->
        exists n, fst (widget module_names named_objs p_name self)
                  = Raise (NameError n)).
Proof.
  intros H.
  destruct (H named_objs_spec (panel_of obj_file) "path" _ _ _
              eq_refl eq_refl eq_refl eq_refl) as [n Hn].
  discriminate Hn.
Qed.

(** C7 (the code departs from the claim).  For the range Low = 1,
    High = 2 and the value 2, [widget] raises the unbound-name error for
    [named_objs] and builds no control. *)
Theorem C7_low_high_raises :
  widget module_names named_objs_spec "level" (panel_of obj_level)
  = (Raise (NameError "named_objs"), panel_of obj_level).
Proof. reflexivity. Qed.

(** In a namespace that binds [named_objs] to the function that hands the
    pairs on, the control of the same attribute has the value and the
    options the claim describes. *)
Example low_high_completed :
  exists w self',
    widget completed_names named_objs_spec "level" (panel_of obj_level)
    = (Ok w, self')
    /\ widget_class w = Select
    /\ kw_value (kw w) = VStr "High"
    /\ kw_options (kw w)
       = Some [(VStr "Low", VStr "Low"); (VStr "High", VStr "High")]
    /\ _widget_options self' = [(VStr "level", VDict low_high)].
Proof.
  do 2 eexists. split; [ vm_compute; reflexivity | ].
  repeat split.
Qed.

(** ** The mapping table *)

(** What holds of the table in the module as written: an attribute whose
    kind has no entry in [_mapping] makes [widget] raise the lookup error,
    in any namespace and whatever [named_objs] is; for a kind with an
    entry, a control that [widget] returns is of the mapped class, and one
    is returned when the attribute has no range or its value is a dict. *)
Lemma mapping_cases (named_objs : dict -> result (list (Value * Value)))
        (self : Self) (p_name : string) (p_obj : ParameterObj) :
  params_of (object self) p_name = Ok p_obj ->
  match _mapping (ptype p_obj) with
  | None =>
      forall G, widget G named_objs p_name self = (Raise KeyError, self)
  | Some c =>
      (forall G w self',
          widget G named_objs p_name self = (Ok w, self') ->
          widget_class w = c)
      /\ (forall v, getattr (object self) p_name = Ok v ->
                    get_range p_obj = None \/ is_dict v = true ->
                    exists w,
                      widget module_names named_objs p_name self
                      = (Ok w, self)
                      /\ widget_class w = c)
  end.
Proof.
  intros Hp. destruct (_mapping (ptype p_obj)) as [c | ] eqn:Hm.
  - split.
    + intros G w self' Hw.
      destruct (widget_returns named_objs G self self' p_name w Hw)
        as [p' [Hp' [Hm' _]]].
      rewrite Hp in Hp'. injection Hp' as <-.
      rewrite Hm in Hm'. injection Hm' as ->. reflexivity.
    + intros v Hv Hr.
      destruct (widget_without_range named_objs self p_name p_obj c v
                  Hp Hm Hv Hr) as [w [Hw [Hc _]]].
      exists w. auto.
  - intros G. eapply widget_unmapped; eassumption.
Qed.

Example mapping_cases_obj_p :
  (forall G, widget G named_objs_spec "name" (panel_of obj_p)
             = (Raise KeyError, panel_of obj_p))
  /\ (exists w, widget module_names named_objs_spec "p1" (panel_of obj_p)
                = (Ok w, panel_of obj_p)
                /\ widget_class w = IntSlider).
Proof.
  split.
  - exact (mapping_cases named_objs_spec (panel_of obj_p) "name"
             (plain (OtherType "String") None) eq_refl).
  - exact (proj2 (mapping_cases named_objs_spec (panel_of obj_p) "p1"
                    (plain Integer None) eq_refl)
                 (VInt 0) eq_refl (or_introl eq_refl)).
Qed.

(** C10 (the code departs from the claim).  [Selector] and [ListSelector]
    have entries in [_mapping] ([Select] and [MultiSelect]), yet for an
    attribute of either kind with a range and a value that is not a dict
    [widget] raises the unbound-name error for [named_objs] at line 75 and
    builds no control, of the mapped class or of any other. *)
Theorem C10_mapped_kinds_raise
        (named_objs : dict -> result (list (Value * Value))) :
  (_mapping Selector = Some Select
   /\ widget module_names named_objs "level" (panel_of obj_level)
      = (Raise (NameError "named_objs"), panel_of obj_level))
  /\ (_mapping ListSelector = Some MultiSelect
      /\ widget module_names named_objs "levels"
                (panel_of Cases.obj_multi)
         = (Raise (NameError "named_objs"), panel_of Cases.obj_multi)).
Proof. repeat split. Qed.

(** The table, entry by entry. *)
Example mapping_entries :
  map _mapping [Parameter_; Dict; Selector; Boolean; Number; Integer;
                Range; ListSelector; Date]
  = map Some [LiteralInput; LiteralInput; Select; Checkbox; FloatSlider;
              IntSlider; RangeSlider; MultiSelect; DatePicker].
Proof. reflexivity. Qed.

Example widget_p1 :
  exists w, widget module_names named_objs_spec "p1" (panel_of obj_p)
            = (Ok w, panel_of obj_p)
            /\ widget_class w = IntSlider /\ kw_value (kw w) = VInt 0.
Proof. eexists. split; [ reflexivity | split; reflexivity ]. Qed.

Example widget_name_unmapped :
  widget module_names named_objs_spec "name" (panel_of obj_p)
  = (Raise KeyError, panel_of obj_p).
Proof. reflexivity. Qed.

(** ** The change relay *)

Lemma assoc_set_same {B} (l : list (string * B)) (k : string) (v : B) :
  assoc (assoc_set l k v) k = Some v.
Proof.
  induction l as [ | [k' v'] l IH]; simpl.
  - rewrite String.eqb_refl. reflexivity.
  - destruct (String.eqb k' k) eqn:E; simpl; rewrite E; auto.
Qed.

Lemma assoc_set_other {B} (l : list (string * B)) (k q : string) (v : B) :
  q <> k -> assoc (assoc_set l k v) q = assoc l q.
Proof.
  intros Hq. induction l as [ | [k' v'] l IH]; simpl.
  - destruct (String.eqb k q) eqn:E; [ | reflexivity ].
    apply String.eqb_eq in E. congruence.
  - destruct (String.eqb k' k) eqn:E; simpl.
    + apply String.eqb_eq in E. subst k'.
      destruct (String.eqb k q) eqn:E'; [ | reflexivity ].
      apply String.eqb_eq in E'. congruence.
    + rewrite IH. reflexivity.
Qed.

(** C9.  When the attribute system accepts the assignment, the relay
    returns and the attribute then holds the event's new value itself,
    whatever the cache of option lookups contains; the cache, the panel's
    parameters and every other attribute are as before.  The relay adds
    no check of its own: it raises exactly when the attribute system
    rejects, with that error, and then changes nothing. *)
Theorem C9_apply_change (self : Self) (p_name : string) (change : Change) :
  match set_check (object self) p_name (new change) with
  | None =>
      exists self',
        _apply_change p_name change self = (Ok tt, self')
        /\ getattr (object self') p_name = Ok (new change)
        /\ (forall q, q <> p_name ->
                      getattr (object self') q = getattr (object self) q)
        /\ params (object self') = params (object self)
        /\ _widget_options self' = _widget_options self
  | Some e => _apply_change p_name change self = (Raise e, self)
  end.
Proof.
  unfold _apply_change, setattr.
  destruct (set_check (object self) p_name (new change)) as [e | ].
  - reflexivity.
  - eexists. split; [ reflexivity | ].
    unfold getattr. cbn. rewrite assoc_set_same.
    repeat split; auto.
    intros q Hq. rewrite assoc_set_other by assumption. reflexivity.
Qed.

(** The relay on an object that accepts everything, and on one that
    rejects the value. *)
Lemma C9_apply_change_witness :
  (exists self',
      _apply_change "level" {| new := VStr "Low" |} (panel_of obj_level)
      = (Ok tt, self')
      /\ getattr (object self') "level" = Ok (VStr "Low"))
  /\ _apply_change "p1" {| new := VStr "x" |} (panel_of obj_p)
     = (Raise (ValueError "p1 must be an integer"), panel_of obj_p).
Proof.
  split.
  - destruct (C9_apply_change (panel_of obj_level) "level"
                {| new := VStr "Low" |}) as [self' [H1 [H2 _]]].
    exists self'. split; assumption.
  - exact (C9_apply_change (panel_of obj_p) "p1" {| new := VStr "x" |}).
Defined.

(** The label the control shows goes to the object as it is, although the
    cache maps it to the value 1. *)
Example relay_stores_label :
  let self := set_widget_options (panel_of obj_level)
                [(VStr "level", VDict low_high)] in
  exists self',
    _apply_change "level" {| new := VStr "Low" |} self = (Ok tt, self')
    /\ getattr (object self') "level" = Ok (VStr "Low").
Proof. eexists. split; reflexivity. Qed.

(** ** Dictionaries and the reverse lookup *)

Import Labels.

(** [==] is symmetric and transitive on the values it relates. *)
Lemma py_eq_sym (a b : Value) : py_eq a b = py_eq b a.
Proof.
  destruct a as [ | x | x | x | x | x], b as [ | y | y | y | y | y];
    simpl; try reflexivity.
  - destruct x, y; reflexivity.
  - apply Z.eqb_sym.
  - apply Z.eqb_sym.
  - apply Z.eqb_sym.
  - apply String.eqb_sym.
Qed.

Lemma py_eq_trans (a b c : Value) :
  py_eq a b = true -> py_eq b c = true -> py_eq a c = true.
Proof.
  destruct a as [ | x | x | x | x | x], b as [ | y | y | y | y | y],
           c as [ | z | z | z | z | z];
    simpl; try discriminate; try reflexivity;
    rewrite ?Bool.eqb_true_iff, ?Z.eqb_eq, ?String.eqb_eq;
    try congruence.
  all: destruct x, y; simpl; try congruence; try discriminate.
  all: try (destruct z; simpl; congruence).
Qed.

Lemma py_eq_false_l (a b c : Value) :
  py_eq a b = true -> py_eq b c = false -> py_eq a c = false.
Proof.
  intros Hab Hbc. destruct (py_eq a c) eqn:Hac; [ | reflexivity ].
  rewrite py_eq_sym in Hab.
  rewrite (py_eq_trans b a c Hab Hac) in Hbc. discriminate.
Qed.

(** Reading after a store. *)
Lemma find_key_store (d : dict) (k x v : Value) :
  find_key (store d k x) v
  = if py_eq k v then Some x else find_key d v.
Proof.
  induction d as [ | [k' v'] d IH]; simpl.
  - reflexivity.
  - destruct (py_eq k' k) eqn:Ek; simpl.
    + destruct (py_eq k v) eqn:Ev.
      * rewrite (py_eq_trans k' k v Ek Ev). reflexivity.
      * rewrite (py_eq_false_l k' k v Ek Ev). reflexivity.
    + rewrite IH. destruct (py_eq k' v) eqn:Ev'; [ | reflexivity ].
      destruct (py_eq k v) eqn:Ev; [ | reflexivity ].
      rewrite py_eq_sym in Ev.
      rewrite (py_eq_trans k' v k Ev' Ev) in Ek. discriminate.
Qed.

(** A comprehension keyed by the values: a value reads the label of the
    last pair that holds it. *)
Lemma dict_comp_from_last (options : list (Value * Value)) :
  forall (acc d : dict) (v : Value),
    dict_comp_from snd fst options acc = Ok d ->
    find_key d v = match last_label options v with
                   | Some l => Some l
                   | None => find_key acc v
                   end.
Proof.
  induction options as [ | [k v'] rest IH]; intros acc d v H; simpl in *.
  - injection H as <-. reflexivity.
  - unfold dict_set in H. destruct (hashable v'); [ | discriminate ].
    simpl in H. rewrite (IH _ _ v H).
    destruct (last_label rest v); [ reflexivity | ].
    rewrite find_key_store. destruct (py_eq v' v); reflexivity.
Qed.

Lemma dict_comp_from_total {A} (key val : A -> Value) (l : list A) :
  forall acc,
    forallb (fun x => hashable (key x)) l = true ->
    exists d, dict_comp_from key val l acc = Ok d.
Proof.
  induction l as [ | x xs IH]; intros acc H; simpl in *.
  - eauto.
  - apply andb_true_iff in H. destruct H as [Hx Hxs].
    unfold dict_set. rewrite Hx. simpl. apply IH. assumption.
Qed.

(** C8 (as amended).  When the values of the pairs are hashable the
    reverse lookup of line 77 is built, and a value then reads the label
    of the last pair that holds it: a later pair overwrites the label of
    an earlier pair with an equal value. *)
Theorem C8_lookup_keeps_last (options : list (Value * Value)) :
  forallb (fun kv => hashable (snd kv)) options = true ->
  exists lookup,
    lookup_of options = Ok lookup
    /\ forall v, hashable v = true ->
                 dict_get lookup v = match last_label options v with
                                     | Some l => Ok l
                                     | None => Raise KeyError
                                     end.
Proof.
  intros H. unfold lookup_of, dict_comp.
  destruct (dict_comp_from_total snd fst options [] H) as [d Hd].
  exists d. split; [ assumption | ].
  intros v Hv. unfold dict_get. rewrite Hv.
  rewrite (dict_comp_from_last options [] d v Hd).
  destruct (last_label options v); reflexivity.
Qed.

Lemma C8_lookup_keeps_last_witness :
  exists lookup,
    lookup_of two_labels = Ok lookup
    /\ forall v, hashable v = true ->
                 dict_get lookup v = match last_label two_labels v with
                                     | Some l => Ok l
                                     | None => Raise KeyError
                                     end.
Proof. apply (C8_lookup_keeps_last two_labels). reflexivity. Defined.

(** C8 as stated fails: with the labels A and B for the value 1, the
    reverse lookup reads B, the label inserted last, where the first
    label is A. *)
Lemma C8_first_label_counterexample :
  ~ (forall options lookup v l,
        lookup_of options = Ok lookup ->
        first_label options v = Some l ->
        dict_get lookup v = Ok l).
Proof.
  intros H.
  specialize (H two_labels [(VInt 1, VStr "B")] (VInt 1) (VStr "A")
                eq_refl eq_refl).
  discriminate H.
Qed.

(** The same in [widget], in a namespace that binds [named_objs]: the
    control of a value with the labels A and B shows B. *)
Example two_labels_completed :
  exists w self',
    widget completed_names named_objs_spec "choice"
           (panel_of obj_two_labels) = (Ok w, self')
    /\ kw_value (kw w) = VStr "B".
Proof. do 2 eexists. split; [ vm_compute; reflexivity | reflexivity ]. Qed.

(** ** [sorted] and [groupby] *)

Section SortedFacts.
Context {A : Type}.
Variable lt : A -> A -> bool.

Lemma insert_perm (x : A) (l : list A) :
  Permutation (insert lt x l) (x :: l).
Proof.
  induction l as [ | y ys IH]; simpl.
  - apply Permutation_refl.
  - destruct (lt y x).
    + eapply perm_trans; [ apply perm_skip, IH | apply perm_swap ].
    + apply Permutation_refl.
Qed.

Lemma sorted_perm (l : list A) : Permutation (sorted lt l) l.
Proof.
  induction l as [ | x xs IH]; simpl.
  - apply perm_nil.
  - eapply perm_trans; [ apply insert_perm | apply perm_skip, IH ].
Qed.

Hypothesis lt_asym : forall a b, lt a b = true -> lt b a = false.
Hypothesis not_after_trans :
  forall a b c, not_after lt a b -> not_after lt b c -> not_after lt a c.

Lemma insert_sorted (x : A) (l : list A) :
  StronglySorted (not_after lt) l ->
  StronglySorted (not_after lt) (insert lt x l).
Proof.
  induction l as [ | y ys IH]; intros Hs; simpl.
  - constructor; constructor.
  - apply StronglySorted_inv in Hs. destruct Hs as [Hys Hy].
    destruct (lt y x) eqn:E.
    + constructor; [ apply IH; assumption | ].
      eapply Permutation_Forall.
      * apply Permutation_sym, insert_perm.
      * constructor; [ apply lt_asym; assumption | assumption ].
    + constructor; [ constructor; assumption | ].
      constructor; [ exact E | ].
      eapply Forall_impl; [ | exact Hy ].
      intros z Hz. eapply not_after_trans; [ exact E | exact Hz ].
Qed.

Lemma sorted_sorted (l : list A) :
  StronglySorted (not_after lt) (sorted lt l).
Proof.
  induction l as [ | x xs IH]; simpl.
  - constructor.
  - apply insert_sorted, IH.
Qed.
End SortedFacts.

Section StronglySortedFacts.
Context {A : Type}.

Lemma StronglySorted_app (R : A -> A -> Prop) (l1 l2 : list A) :
  StronglySorted R l1 -> StronglySorted R l2 ->
  (forall x y, In x l1 -> In y l2 -> R x y) ->
  StronglySorted R (l1 ++ l2).
Proof.
  induction l1 as [ | a l1 IH]; intros H1 H2 H; simpl.
  - assumption.
  - apply StronglySorted_inv in H1. destruct H1 as [H1 Ha].
    constructor.
    + apply IH; auto. intros x y Hx Hy. apply H; simpl; auto.
    + apply Forall_app. split; [ assumption | ].
      apply Forall_forall. intros y Hy. apply H; simpl; auto.
Qed.


(** A sorted list stays sorted for a relation that holds wherever the
    first does, among the elements of the list. *)
Lemma StronglySorted_weaken (R R' : A -> A -> Prop) (l : list A) :
  (forall x y, In x l -> In y l -> R x y -> R' x y) ->
  StronglySorted R l -> StronglySorted R' l.
Proof.
  induction l as [ | a l IH]; intros H Hs.
  - constructor.
  - apply StronglySorted_inv in Hs. destruct Hs as [Hs Ha].
    constructor.
    + apply IH; [ | assumption ].
      intros x y Hx Hy. apply H; simpl; auto.
    + rewrite Forall_forall in *. intros y Hy.
      apply H; simpl; auto.
Qed.

Lemma StronglySorted_filter (R : A -> A -> Prop) (f : A -> bool)
      (l : list A) :
  StronglySorted R l -> StronglySorted R (filter f l).
Proof.
  induction l as [ | a l IH]; intros Hs; simpl.
  - constructor.
  - apply StronglySorted_inv in Hs. destruct Hs as [Hs Ha].
    destruct (f a); [ | auto ].
    constructor; [ auto | ].
    rewrite Forall_forall in *. intros y Hy.
    apply filter_In in Hy. apply Ha. tauto.
Qed.

(** Distinct images make a sorted list strictly sorted. *)
Lemma StronglySorted_NoDup {B} (R : A -> A -> Prop) (f : A -> B)
      (l : list A) :
  StronglySorted R l -> NoDup (map f l) ->
  StronglySorted (fun x y => R x y /\ f x <> f y) l.
Proof.
  induction l as [ | a l IH]; intros Hs Hn.
  - constructor.
  - apply StronglySorted_inv in Hs. destruct Hs as [Hs Ha].
    simpl in Hn. apply NoDup_cons_iff in Hn. destruct Hn as [Hin Hn].
    constructor; [ auto | ].
    rewrite Forall_forall in *. intros y Hy. split; [ auto | ].
    intros E. apply Hin. rewrite E. apply in_map. assumption.
Qed.
End StronglySortedFacts.

Section GroupByFacts.
Context {A : Type}.
Variable key : A -> Q.

Lemma groupby_concat (l : list A) :
  List.concat (map snd (groupby key l)) = l.
Proof.
  induction l as [ | x xs IH]; simpl.
  - reflexivity.
  - destruct (groupby key xs) as [ | [k g] rest]; simpl in *.
    + rewrite <- IH. reflexivity.
    + destruct (Qeq_bool (key x) k); simpl; rewrite <- IH; reflexivity.
Qed.

(** Each group is a non-empty run of elements with the key of the
    group. *)
Lemma groupby_keys (l : list A) :
  Forall (fun kg => snd kg <> []
                    /\ Forall (fun a => key a == fst kg) (snd kg))
         (groupby key l).
Proof.
  induction l as [ | x xs IH]; simpl.
  - constructor.
  - destruct (groupby key xs) as [ | [k g] rest].
    + constructor; [ | constructor ]. simpl. split; [ discriminate | ].
      constructor; [ reflexivity | constructor ].
    + apply Forall_cons_iff in IH. destruct IH as [[Hne Hg] Hrest].
      simpl in Hne, Hg.
      destruct (Qeq_bool (key x) k) eqn:E.
      * apply Qeq_bool_iff in E.
        constructor; [ | assumption ]. simpl.
        split; [ discriminate | ].
        constructor; [ reflexivity | ].
        eapply Forall_impl; [ | exact Hg ].
        intros a Ha. simpl in Ha. rewrite Ha, E. reflexivity.
      * constructor.
        -- simpl. split; [ discriminate | ].
           constructor; [ reflexivity | constructor ].
        -- constructor; [ simpl; auto | assumption ].
Qed.

(** The groups of a list sorted by key have strictly ascending keys. *)
Lemma groupby_sorted (l : list A) :
  StronglySorted (fun a b => key a <= key b) l ->
  StronglySorted (fun g1 g2 => fst g1 < fst g2) (groupby key l).
Proof.
  induction l as [ | x xs IH]; intros Hs; simpl.
  - constructor.
  - apply StronglySorted_inv in Hs. destruct Hs as [Hs Hx].
    specialize (IH Hs).
    pose proof (groupby_keys xs) as Hk.
    pose proof (groupby_concat xs) as Hc.
    destruct (groupby key xs) as [ | [k g] rest].
    + constructor; constructor.
    + apply StronglySorted_inv in IH. destruct IH as [IHrest IHk].
      apply Forall_cons_iff in Hk. destruct Hk as [[Hne Hg] _].
      simpl in Hne, Hg, IHk.
      assert (Hle : key x <= k).
      { destruct g as [ | a g']; [ congruence | ].
        apply Forall_cons_iff in Hg. destruct Hg as [Ha _].
        rewrite <- Ha. rewrite Forall_forall in Hx. apply Hx.
        rewrite <- Hc. simpl. auto. }
      destruct (Qeq_bool (key x) k) eqn:E.
      * apply Qeq_bool_iff in E.
        constructor; [ assumption | ].
        eapply Forall_impl; [ | exact IHk ].
        intros g2 H2. simpl in *. rewrite E. assumption.
      * apply Qeq_bool_neq in E.
        assert (Hlt : key x < k).
        { apply Qle_lt_or_eq in Hle. tauto. }
        constructor.
        -- constructor; assumption.
        -- constructor; [ exact Hlt | ].
           eapply Forall_impl; [ | exact IHk ].
           intros g2 H2. simpl in *.
           eapply Qlt_trans; eassumption.
Qed.
End GroupByFacts.

(** ** The order of names *)

Lemma ltb_lt (a b : string) :
  String.ltb a b = true <-> String_as_OT.lt a b.
Proof.
  unfold String.ltb. rewrite <- String_as_OT.cmp_lt.
  unfold String_as_OT.cmp. destruct (String.compare a b); split;
    congruence.
Qed.

Lemma ltb_trans (a b c : string) :
  String.ltb a b = true -> String.ltb b c = true -> String.ltb a c = true.
Proof.
  rewrite !ltb_lt. apply String_as_OT.lt_trans.
Qed.

Lemma ltb_irrefl (a : string) : String.ltb a a = false.
Proof.
  destruct (String.ltb a a) eqn:E; [ | reflexivity ].
  apply ltb_lt in E. apply String_as_OT.lt_not_eq in E.
  exfalso. apply E. reflexivity.
Qed.

Lemma ltb_asym (a b : string) :
  String.ltb a b = true -> String.ltb b a = false.
Proof.
  intros H. destruct (String.ltb b a) eqn:E; [ | reflexivity ].
  pose proof (ltb_trans a b a H E) as Haa.
  rewrite ltb_irrefl in Haa. discriminate.
Qed.

Lemma ltb_total (a b : string) :
  a <> b -> String.ltb b a = false -> String.ltb a b = true.
Proof.
  intros Hne. unfold String.ltb. rewrite (String.compare_antisym b a).
  destruct (String.compare a b) eqn:E; simpl; try congruence.
  apply String.compare_eq_iff in E. congruence.
Qed.

Lemma not_after_ltb_trans (a b c : string) :
  String.ltb b a = false -> String.ltb c b = false ->
  String.ltb c a = false.
Proof.
  intros Hab Hbc. destruct (String.ltb c a) eqn:E; [ | reflexivity ].
  destruct (String.eqb_spec a b) as [-> | Hne]; [ congruence | ].
  pose proof (ltb_total a b Hne Hab) as Hlt.
  rewrite (ltb_trans c a b E Hlt) in Hbc. discriminate.
Qed.

(** ** The order of the parameters (lines 103-110) *)

Section OrderFacts.
Variable self : Self.

Lemma key_lt_asym (a b : string * ParameterObj) :
  key_lt self a b = true -> key_lt self b a = false.
Proof.
  unfold key_lt, Qltb. rewrite !negb_true_iff, !negb_false_iff.
  intros H. apply Qle_bool_iff.
  destruct (Qlt_le_dec (key_fn self b) (key_fn self a)) as [Hlt | Hle].
  - apply Qlt_le_weak in Hlt. apply Qle_bool_iff in Hlt. congruence.
  - assumption.
Qed.

Lemma not_after_key (a b : string * ParameterObj) :
  not_after (key_lt self) a b <-> key_le self a b.
Proof.
  unfold not_after, key_lt, Qltb, key_le.
  rewrite negb_false_iff. apply Qle_bool_iff.
Qed.

Lemma sorted_precedence_sorted :
  StronglySorted (key_le self) (sorted_precedence self).
Proof.
  unfold sorted_precedence.
  apply StronglySorted_weaken with (R := not_after (key_lt self)).
  - intros x y _ _. apply not_after_key.
  - apply sorted_sorted.
    + apply key_lt_asym.
    + intros a b c. rewrite !not_after_key. unfold key_le.
      apply Qle_trans.
Qed.

Lemma filtered_sorted : StronglySorted (key_le self) (filtered self).
Proof. apply StronglySorted_filter, sorted_precedence_sorted. Qed.

Lemma filtered_In (x : string * ParameterObj) :
  In x (filtered self)
  <-> In x (params (object self)) /\ displayed self x = true.
Proof.
  unfold filtered. rewrite filter_In. unfold sorted_precedence.
  split; intros [H1 H2]; split; try assumption.
  - eapply Permutation_in; [ apply sorted_perm | exact H1 ].
  - eapply Permutation_in;
      [ apply Permutation_sym, sorted_perm | exact H1 ].
Qed.

Lemma displayed_iff (x : string * ParameterObj) :
  displayed self x = true <-> ~ below_threshold self (snd x).
Proof.
  unfold displayed, below_threshold.
  destruct (precedence (snd x)) as [q | ].
  - rewrite Qle_bool_iff. split.
    + intros Hle [q' [E Hlt]]. injection E as <-.
      exact (Qlt_not_le _ _ Hlt Hle).
    + intros H. apply Qnot_lt_le. intros Hlt. apply H. eauto.
  - split; [ | reflexivity ]. intros _ [q [E _]]. discriminate.
Qed.

Lemma regroup_perm (gs : list (Q * list (string * ParameterObj))) :
  Permutation
    (List.concat (map (fun kg => sorted tuple_lt (snd kg)) gs))
    (List.concat (map snd gs)).
Proof.
  induction gs as [ | [k g] gs IH]; simpl.
  - apply perm_nil.
  - apply Permutation_app; [ apply sorted_perm | exact IH ].
Qed.

Lemma ordered_pairs_perm :
  Permutation (ordered_pairs self) (filtered self).
Proof.
  unfold ordered_pairs, sorted_groups.
  eapply perm_trans; [ apply regroup_perm | ].
  rewrite groupby_concat. apply Permutation_refl.
Qed.

Lemma ordered_pairs_In (x : string * ParameterObj) :
  In x (ordered_pairs self)
  <-> In x (params (object self)) /\ displayed self x = true.
Proof.
  rewrite <- filtered_In. split; apply Permutation_in.
  - apply ordered_pairs_perm.
  - apply Permutation_sym, ordered_pairs_perm.
Qed.

Lemma tuple_lt_sorted (g : list (string * ParameterObj)) :
  StronglySorted (not_after tuple_lt) (sorted tuple_lt g).
Proof.
  apply sorted_sorted.
  - intros a b. apply ltb_asym.
  - intros a b c. unfold not_after, tuple_lt. apply not_after_ltb_trans.
Qed.

Lemma regroup_sorted (gs : list (Q * list (string * ParameterObj))) :
  StronglySorted (fun g1 g2 => fst g1 < fst g2) gs ->
  Forall (fun kg => snd kg <> []
                    /\ Forall (fun a => key_fn self a == fst kg) (snd kg))
         gs ->
  StronglySorted (lex_le self)
    (List.concat (map (fun kg => sorted tuple_lt (snd kg)) gs)).
Proof.
  induction gs as [ | [k g] gs IH]; intros Hs Hk; simpl.
  - constructor.
  - apply StronglySorted_inv in Hs. destruct Hs as [Hs Hlt].
    apply Forall_cons_iff in Hk. destruct Hk as [[_ Hg] Hk].
    simpl in Hg.
    assert (Hg' : forall x, In x (sorted tuple_lt g) ->
                            key_fn self x == k).
    { intros x Hx. rewrite Forall_forall in Hg. apply Hg.
      eapply Permutation_in; [ apply sorted_perm | exact Hx ]. }
    apply StronglySorted_app.
    + apply StronglySorted_weaken with (R := not_after tuple_lt);
        [ | apply tuple_lt_sorted ].
      intros x y Hx Hy Hxy. right. split; [ | exact Hxy ].
      rewrite (Hg' x Hx), (Hg' y Hy). reflexivity.
    + apply IH; assumption.
    + intros x y Hx Hy. left.
      apply in_concat in Hy. destruct Hy as [l [Hl Hy]].
      apply in_map_iff in Hl. destruct Hl as [[k' g'] [El Hin]].
      subst l. simpl in Hy.
      rewrite Forall_forall in Hlt, Hk.
      specialize (Hlt _ Hin). specialize (Hk _ Hin).
      destruct Hk as [_ Hk]. simpl in Hlt, Hk.
      rewrite Forall_forall in Hk.
      assert (Hy' : key_fn self y == k').
      { apply Hk. eapply Permutation_in; [ apply sorted_perm | exact Hy ]. }
      rewrite (Hg' x Hx), Hy'. exact Hlt.
Qed.

Lemma ordered_pairs_lex_le :
  StronglySorted (lex_le self) (ordered_pairs self).
Proof.
  unfold ordered_pairs, sorted_groups. apply regroup_sorted.
  - apply groupby_sorted. exact filtered_sorted.
  - apply groupby_keys.
Qed.

Lemma NoDup_map_filter {B} (f : string * ParameterObj -> B)
      (g : string * ParameterObj -> bool)
      (l : list (string * ParameterObj)) :
  NoDup (map f l) -> NoDup (map f (filter g l)).
Proof.
  induction l as [ | a l IH]; simpl; intros H.
  - constructor.
  - apply NoDup_cons_iff in H. destruct H as [Hin H].
    destruct (g a); simpl; [ | auto ].
    constructor; [ | auto ].
    intros Hin'. apply Hin. apply in_map_iff in Hin'.
    destruct Hin' as [x [E Hx]]. apply filter_In in Hx.
    rewrite <- E. apply in_map. tauto.
Qed.

Hypothesis unique_names : NoDup (map fst (params (object self))).

Lemma ordered_pairs_NoDup : NoDup (map fst (ordered_pairs self)).
Proof.
  eapply Permutation_NoDup.
  - apply Permutation_map, Permutation_sym, ordered_pairs_perm.
  - unfold filtered. apply NoDup_map_filter.
    eapply Permutation_NoDup.
    + apply Permutation_map, Permutation_sym, sorted_perm.
    + exact unique_names.
Qed.

Lemma lex_le_lt (x y : string * ParameterObj) :
  lex_le self x y -> fst x <> fst y -> lex_lt self x y.
Proof.
  intros [Hlt | [Heq Hle]] Hne; [ left; assumption | right ].
  split; [ assumption | ]. apply ltb_total; assumption.
Qed.

Lemma ordered_pairs_lex_lt :
  StronglySorted (lex_lt self) (ordered_pairs self).
Proof.
  apply StronglySorted_weaken
    with (R := fun x y => lex_le self x y /\ fst x <> fst y).
  - intros x y _ _ [H1 H2]. apply lex_le_lt; assumption.
  - apply StronglySorted_NoDup.
    + apply ordered_pairs_lex_le.
    + apply ordered_pairs_NoDup.
Qed.

(** A name is among the ordered names exactly when its parameter is
    displayed. *)
Lemma ordered_params_In (k : string) (p : ParameterObj) :
  In (k, p) (params (object self)) ->
  (In k (ordered_params self) <-> displayed self (k, p) = true).
Proof.
  intros Hin. unfold ordered_params. fold (ordered_pairs self). split.
  - intros H. apply in_map_iff in H. destruct H as [[k' p'] [E H]].
    simpl in E. subst k'. apply ordered_pairs_In in H.
    destruct H as [Hin' Hd].
    assert (p' = p); [ | subst; assumption ].
    clear Hd. revert unique_names Hin Hin'.
    generalize (params (object self)). intros l.
    induction l as [ | [k0 p0] l IH]; simpl; intros Hn H1 H2;
      [ contradiction | ].
    apply NoDup_cons_iff in Hn. destruct Hn as [Hnot Hn].
    destruct H1 as [E1 | H1], H2 as [E2 | H2].
    + congruence.
    + injection E1 as -> ->. exfalso. apply Hnot.
      change k with (fst (k, p')). apply in_map. assumption.
    + injection E2 as -> ->. exfalso. apply Hnot.
      change k with (fst (k, p)). apply in_map. assumption.
    + auto.
  - intros Hd. apply in_map_iff. exists (k, p). split; [ reflexivity | ].
    apply ordered_pairs_In. auto.
Qed.
End OrderFacts.

(** ** [index] and [pop] *)

Lemma list_pop_map {A B} (f : A -> B) (l : list A) (i : nat) :
  list_pop (map f l) i = map f (list_pop l i).
Proof.
  revert i. induction l as [ | a l IH]; intros [ | i]; simpl;
    try reflexivity.
  rewrite IH. reflexivity.
Qed.

Lemma list_pop_In {A} (l : list A) (i : nat) (y : A) :
  In y (list_pop l i) -> In y l.
Proof.
  revert i. induction l as [ | a l IH]; intros [ | i]; simpl; auto.
  intros [-> | H]; eauto.
Qed.

Lemma list_pop_sorted {A} (R : A -> A -> Prop) (l : list A) (i : nat) :
  StronglySorted R l -> StronglySorted R (list_pop l i).
Proof.
  revert i. induction l as [ | a l IH]; intros i Hs.
  - destruct i; constructor.
  - apply StronglySorted_inv in Hs. destruct Hs as [Hs Ha].
    destruct i as [ | i]; simpl; [ assumption | ].
    constructor; [ apply IH; assumption | ].
    rewrite Forall_forall in *. intros y Hy. apply Ha.
    eapply list_pop_In. exact Hy.
Qed.

Lemma list_index_pop_other (l : list string) (x y : string) (i : nat) :
  list_index l x = Ok i -> In y l -> y <> x -> In y (list_pop l i).
Proof.
  revert i. induction l as [ | a l IH]; intros i Hi Hy Hne; simpl in *.
  - contradiction.
  - destruct (String.eqb_spec a x) as [-> | Hax].
    + injection Hi as <-. destruct Hy as [-> | Hy]; [ congruence | exact Hy ].
    + destruct (list_index l x) as [j | e]; [ | discriminate ].
      injection Hi as <-. simpl.
      destruct Hy as [-> | Hy]; [ left; reflexivity | right; eauto ].
Qed.

Lemma list_index_pop_absent (l : list string) (x : string) (i : nat) :
  list_index l x = Ok i -> NoDup l -> ~ In x (list_pop l i).
Proof.
  revert i. induction l as [ | a l IH]; intros i Hi Hn; simpl in *.
  - discriminate.
  - apply NoDup_cons_iff in Hn. destruct Hn as [Hnot Hn].
    destruct (String.eqb_spec a x) as [-> | Hax].
    + injection Hi as <-. exact Hnot.
    + destruct (list_index l x) as [j | e]; [ | discriminate ].
      injection Hi as <-. simpl. intros [E | H]; [ congruence | ].
      exact (IH j eq_refl Hn H).
Qed.

Lemma list_index_total (l : list string) (x : string) :
  In x l -> exists i, list_index l x = Ok i.
Proof.
  induction l as [ | a l IH]; simpl; intros H; [ contradiction | ].
  destruct (String.eqb_spec a x) as [-> | Hax]; [ eauto | ].
  destruct H as [E | H]; [ congruence | ].
  destruct (IH H) as [i ->]. simpl. eauto.
Qed.

(** ** _get_widgets *)

Section GetWidgetsFacts.
Variable named_objs : dict -> result (list (Value * Value)).

Lemma mapMS_widget_names (G : list string) (names : list string) :
  forall self self' ws,
    mapMS (widget G named_objs) names self = (Ok ws, self') ->
    control_names (map widget_item ws) = names.
Proof.
  induction names as [ | n names IH]; intros self self' ws; simpl.
  - unfold ret. intros H. injection H as <- _. reflexivity.
  - unfold bindM at 1.
    destruct (widget G named_objs n self) as [[w | e] s1] eqn:Hw;
      [ | discriminate ].
    unfold bindM at 1.
    destruct (mapMS (widget G named_objs) names s1) as [[ws' | e] s2]
      eqn:Hws; [ | discriminate ].
    unfold ret. intros H. injection H as <- _.
    destruct (widget_returns named_objs G self s1 n w Hw)
      as [p_obj [_ [_ Hwatch]]].
    simpl. rewrite Hwatch. simpl.
    rewrite (IH s1 s2 ws' Hws). reflexivity.
Qed.

(** What a returning [_get_widgets] returns: the heading, then one
    control per ordered name other than ["name"]. *)
Lemma get_widgets_returns (self self' : Self) (out : list Item) :
  _get_widgets module_names named_objs self = (Ok out, self') ->
  exists i v ws,
    list_index (ordered_params self) "name" = Ok i
    /\ getattr (object self) "name" = Ok v
    /\ out = to_panel_Div (Text.format "<b>{0}</b>" v)
             :: map widget_item ws
    /\ control_names out = list_pop (ordered_params self) i.
Proof.
  unfold _get_widgets, bindM, lift, ret. simpl resolve.
  destruct (list_index (ordered_params self) "name") as [i | e];
    [ | discriminate ].
  destruct (getattr (object self) "name") as [v | e]; [ | discriminate ].
  destruct (mapMS (widget module_names named_objs)
                  (list_pop (ordered_params self) i) self)
    as [[ws | e] s1] eqn:Hws; [ | discriminate ].
  intros H. injection H as <- _.
  exists i, v, ws. repeat split.
  exact (mapMS_widget_names _ _ _ _ _ Hws).
Qed.
End GetWidgetsFacts.

Lemma list_index_pop_other_map {B} (l : list (string * B)) (x : string)
      (y : string * B) (i : nat) :
  list_index (map fst l) x = Ok i -> In y l -> fst y <> x ->
  In y (list_pop l i).
Proof.
  revert i. induction l as [ | a l IH]; intros i Hi Hy Hne; simpl in *.
  - contradiction.
  - destruct (String.eqb_spec (fst a) x) as [E | Hax].
    + injection Hi as <-. destruct Hy as [-> | Hy]; [ congruence | exact Hy ].
    + destruct (list_index (map fst l) x) as [j | e]; [ | discriminate ].
      injection Hi as <-. simpl.
      destruct Hy as [-> | Hy]; [ left; reflexivity | right; eauto ].
Qed.

Section Uniqueness.
Context {A : Type}.
Variable R : A -> A -> Prop.
Hypothesis R_asym : forall x y, R x y -> R y x -> False.

End Uniqueness.

Lemma Permutation_filter_same {A} (f : A -> bool) (l l' : list A) :
  Permutation l l' -> Permutation (filter f l) (filter f l').
Proof.
  induction 1 as [ | x l l' H IH | x y l | l l' l'' H1 IH1 H2 IH2]; simpl.
  - apply perm_nil.
  - destruct (f x); [ apply perm_skip | ]; exact IH.
  - destruct (f x), (f y); try apply Permutation_refl. apply perm_swap.
  - eapply perm_trans; eassumption.
Qed.


Section ControlsShown.
Variable named_objs : dict -> result (list (Value * Value)).
Variable self : Self.
Hypothesis unique_names : NoDup (map fst (params (object self))).

(** The controls of a returning [_get_widgets] are bound, in order, to
    the displayed parameters other than ["name"], strictly sorted by key
    and then by name. *)
Lemma controls_shown (self' : Self) (out : list Item) :
  _get_widgets module_names named_objs self = (Ok out, self') ->
  exists shown,
    control_names out = map fst shown
    /\ (forall x, In x shown
                  <-> (In x (params (object self))
                       /\ displayed self x = true)
                      /\ fst x <> "name")
    /\ StronglySorted (lex_lt self) shown.
Proof.
  intros H.
  destruct (get_widgets_returns named_objs self self' out H)
    as [i [v [ws [Hi [_ [_ Hn]]]]]].
  unfold ordered_params in Hi, Hn. fold (ordered_pairs self) in Hi, Hn.
  exists (list_pop (ordered_pairs self) i).
  split; [ rewrite Hn; apply list_pop_map | ].
  split.
  - intros x. rewrite <- ordered_pairs_In. split.
    + intros Hx. split; [ eapply list_pop_In; exact Hx | ].
      intros E.
      apply (list_index_pop_absent _ _ _ Hi
               (ordered_pairs_NoDup self unique_names)).
      rewrite list_pop_map, <- E. apply in_map. exact Hx.
    + intros [Hx Hne]. eapply list_index_pop_other_map; eassumption.
  - apply list_pop_sorted, ordered_pairs_lex_lt. exact unique_names.
Qed.
End ControlsShown.


Ltac distinct_names :=
  repeat (apply NoDup_cons; [ simpl; intuition discriminate | ]);
  apply NoDup_nil.

Example get_widgets_prec :
  _get_widgets module_names named_objs_spec (panel_of obj_prec)
  = (Ok out_prec, panel_of obj_prec)
  /\ control_names out_prec = ["b"; "a"; "d"].
Proof. split; vm_compute; reflexivity. Qed.

Example get_widgets_bare :
  _get_widgets module_names named_objs_spec (panel_of obj_bare)
  = (Ok [to_panel_Div (Text.format "<b>{0}</b>" (VStr "Bare00001"))],
     panel_of obj_bare).
Proof. vm_compute. reflexivity. Qed.

(** C4 (as amended).  Whenever [_get_widgets] returns, an attribute other
    than [name] is among the controls exactly when it has no declared
    precedence strictly below [display_threshold]; one with no declared
    precedence is always among them; and the controls are in ascending
    order of the key that is the declared precedence, or
    [default_precedence] where none is declared. *)
Theorem C4_display_threshold
        (named_objs : dict -> result (list (Value * Value)))
        (self self' : Self) (out : list Item) :
  NoDup (map fst (params (object self))) ->
  _get_widgets module_names named_objs self = (Ok out, self') ->
  (forall k p, In (k, p) (params (object self)) -> k <> "name" ->
               (In k (control_names out) <-> ~ below_threshold self p))
  /\ (forall k p, In (k, p) (params (object self)) -> k <> "name" ->
                  precedence p = None -> In k (control_names out))
  /\ exists shown,
       control_names out = map fst shown
       /\ (forall x, In x shown -> In x (params (object self)))
       /\ StronglySorted (key_le self) shown
       /\ (forall x, In x shown -> precedence (snd x) = None ->
                     key_fn self x = default_precedence self).
Proof.
  intros Hn H.
  destruct (controls_shown named_objs self Hn self' out H)
    as [shown [Hnames [Hin Hs]]].
  assert (Hiff : forall k p, In (k, p) (params (object self)) ->
                             k <> "name" ->
                             (In k (control_names out)
                              <-> displayed self (k, p) = true)).
  { intros k p Hp Hne. rewrite Hnames. split.
    - intros Hk. apply in_map_iff in Hk. destruct Hk as [[k' p'] [E Hx]].
      simpl in E. subst k'. apply Hin in Hx. destruct Hx as [[Hx Hd] _].
      apply (ordered_params_In self Hn k p Hp).
      unfold ordered_params. fold (ordered_pairs self).
      apply in_map_iff. exists (k, p'). split; [ reflexivity | ].
      apply ordered_pairs_In. auto.
    - intros Hd. apply in_map_iff. exists (k, p).
      split; [ reflexivity | ]. apply Hin. auto. }
  split; [ | split ].
  - intros k p Hp Hne. rewrite (Hiff k p Hp Hne).
    apply (displayed_iff self (k, p)).
  - intros k p Hp Hne Hnone. apply (Hiff k p Hp Hne).
    unfold displayed. simpl. rewrite Hnone. reflexivity.
  - exists shown. split; [ assumption | ]. split; [ | split ].
    + intros x Hx. apply Hin in Hx. tauto.
    + apply StronglySorted_weaken with (R := lex_lt self);
        [ | assumption ].
      intros x y _ _ [Hlt | [Heq _]]; unfold key_le.
      * apply Qlt_le_weak. assumption.
      * rewrite Heq. apply Qle_refl.
    + intros x _ Hnone. unfold key_fn. rewrite Hnone. reflexivity.
Qed.

Lemma C4_display_threshold_witness :
  (forall k p, In (k, p) (params obj_prec) -> k <> "name" ->
               (In k (control_names out_prec)
                <-> ~ below_threshold (panel_of obj_prec) p))
  /\ (forall k p, In (k, p) (params obj_prec) -> k <> "name" ->
                  precedence p = None -> In k (control_names out_prec))
  /\ exists shown,
       control_names out_prec = map fst shown
       /\ (forall x, In x shown -> In x (params obj_prec))
       /\ StronglySorted (key_le (panel_of obj_prec)) shown
       /\ (forall x, In x shown -> precedence (snd x) = None ->
                     key_fn (panel_of obj_prec) x
                     = default_precedence (panel_of obj_prec)).
Proof.
  apply (C4_display_threshold named_objs_spec (panel_of obj_prec)
           (panel_of obj_prec) out_prec).
  - simpl. distinct_names.
  - vm_compute. reflexivity.
Defined.

(** C4 as stated fails for the attribute [name]: it has no declared
    precedence, and no control is bound to it. *)
Lemma C4_name_counterexample :
  ~ (forall (named_objs : dict -> result (list (Value * Value)))
            (self self' : Self) (out : list Item) k p,
        NoDup (map fst (params (object self))) ->
        _get_widgets module_names named_objs self = (Ok out, self') ->
        In (k, p) (params (object self)) ->
        (In k (control_names out) <-> ~ below_threshold self p)).
Proof.
  intros H.
  assert (Hn : NoDup (map fst (params (object (panel_of obj_prec))))).
  { simpl. distinct_names. }
  destruct (H named_objs_spec (panel_of obj_prec) (panel_of obj_prec)
              out_prec "name" (plain (OtherType "String") None) Hn
              (proj1 get_widgets_prec)
              (or_intror (or_introl eq_refl))) as [_ Hback].
  assert (Hin : In "name" (control_names out_prec)).
  { apply Hback. intros [q [E _]]. discriminate E. }
  vm_compute in Hin. intuition discriminate.
Qed.



(** C6.  Whenever [_get_widgets] returns, the list is one heading followed
    by controls only; the heading is the text ["<b>{0}</b>"] formatted with
    the value of the object's [name], and no control is bound to the
    attribute [name]. *)
Theorem C6_heading (named_objs : dict -> result (list (Value * Value)))
        (self self' : Self) (out : list Item) :
  NoDup (map fst (params (object self))) ->
  _get_widgets module_names named_objs self = (Ok out, self') ->
  exists v ws,
    getattr (object self) "name" = Ok v
    /\ out = to_panel_Div (Text.format "<b>{0}</b>" v) :: map widget_item ws
    /\ ~ In "name" (control_names out)
    /\ (forall s, v = VStr s ->
                  Text.render (Text.format "<b>{0}</b>" v)
                  = Some ("<b>" ++ s ++ "</b>")%string).
Proof.
  intros Hn H.
  destruct (get_widgets_returns named_objs self self' out H)
    as [i [v [ws [Hi [Hv [Hout Hc]]]]]].
  exists v, ws. repeat split; try assumption.
  - rewrite Hc. apply (list_index_pop_absent _ _ _ Hi).
    unfold ordered_params. fold (ordered_pairs self).
    apply ordered_pairs_NoDup. exact Hn.
  - intros s ->. reflexivity.
Qed.

Lemma C6_heading_witness :
  exists v ws,
    getattr obj_prec "name" = Ok v
    /\ out_prec
       = to_panel_Div (Text.format "<b>{0}</b>" v) :: map widget_item ws
    /\ ~ In "name" (control_names out_prec)
    /\ (forall s, v = VStr s ->
                  Text.render (Text.format "<b>{0}</b>" v)
                  = Some ("<b>" ++ s ++ "</b>")%string).
Proof.
  apply (C6_heading named_objs_spec (panel_of obj_prec) (panel_of obj_prec)
           out_prec).
  - simpl. distinct_names.
  - vm_compute. reflexivity.
Defined.

Example heading_prec :
  hd_error out_prec
  = Some (to_panel_Div (Text.format "<b>{0}</b>" (VStr "Prec00001")))
  /\ Text.render (Text.format "<b>{0}</b>" (VStr "Prec00001"))
     = Some "<b>Prec00001</b>".
Proof. split; reflexivity. Qed.

(** ** When [_get_widgets] returns *)

Lemma assoc_In {B} (l : list (string * B)) (k : string) (v : B) :
  NoDup (map fst l) -> In (k, v) l -> assoc l k = Some v.
Proof.
  induction l as [ | [k' v'] l IH]; simpl; intros Hn Hin.
  - contradiction.
  - apply NoDup_cons_iff in Hn. destruct Hn as [Hnot Hn].
    destruct Hin as [E | Hin].
    + injection E as -> ->. rewrite String.eqb_refl. reflexivity.
    + destruct (String.eqb_spec k' k) as [-> | Hne]; [ | auto ].
      exfalso. apply Hnot. change k with (fst (k, v)).
      apply in_map. exact Hin.
Qed.

Lemma mapMS_total {S A B} (f : A -> M S B) (l : list A) (s : S) :
  (forall x, In x l -> exists y, f x s = (Ok y, s)) ->
  exists ys, mapMS f l s = (Ok ys, s).
Proof.
  induction l as [ | x xs IH]; intros H; simpl.
  - exists []. reflexivity.
  - destruct (H x (or_introl eq_refl)) as [y Hy].
    destruct IH as [ys Hys]; [ intros z Hz; apply H; simpl; auto | ].
    exists (y :: ys). unfold bindM, ret. rewrite Hy, Hys. reflexivity.
Qed.

(** [_get_widgets] returns, and leaves the panel as it was, when [name]
    is displayed and has a value and every other displayed attribute has a
    mapped kind, a value and either no range or a dict for a value. *)
Lemma get_widgets_total
      (named_objs : dict -> result (list (Value * Value))) (self : Self) :
  NoDup (map fst (params (object self))) ->
  (exists p, In ("name", p) (params (object self))
             /\ displayed self ("name", p) = true) ->
  (exists v, getattr (object self) "name" = Ok v) ->
  (forall k p, In (k, p) (params (object self)) -> k <> "name" ->
               displayed self (k, p) = true ->
               exists c v, _mapping (ptype p) = Some c
                           /\ getattr (object self) k = Ok v
                           /\ (get_range p = None \/ is_dict v = true)) ->
  exists out, _get_widgets module_names named_objs self = (Ok out, self).
Proof.
  intros Hn [pn [Hpn Hdn]] [vn Hvn] Hall.
  assert (Hin : In "name" (ordered_params self)).
  { apply (ordered_params_In self Hn "name" pn Hpn). exact Hdn. }
  destruct (list_index_total _ _ Hin) as [i Hi].
  destruct (mapMS_total (widget module_names named_objs)
              (list_pop (ordered_params self) i) self) as [ws Hws].
  { intros k Hk.
    assert (Hne : k <> "name").
    { intros ->. revert Hk. apply (list_index_pop_absent _ _ _ Hi).
      unfold ordered_params. fold (ordered_pairs self).
      apply ordered_pairs_NoDup. exact Hn. }
    apply list_pop_In in Hk. unfold ordered_params in Hk.
    fold (ordered_pairs self) in Hk.
    apply in_map_iff in Hk. destruct Hk as [[k' p] [E Hk]].
    simpl in E. subst k'. apply ordered_pairs_In in Hk.
    destruct Hk as [Hp Hd].
    destruct (Hall k p Hp Hne Hd) as [c [v [Hm [Hv Hr]]]].
    destruct (widget_without_range named_objs self k p c v) as [w [Hw _]];
      try assumption.
    - unfold params_of. rewrite (assoc_In _ _ _ Hn Hp). reflexivity.
    - exists w. exact Hw. }
  eexists. unfold _get_widgets, bindM, lift, ret. simpl resolve.
  rewrite Hi, Hvn, Hws. reflexivity.
Qed.

(** With a [name] whose declared precedence is below the threshold, line
    113 does not find it among the ordered names. *)
Example get_widgets_name_hidden :
  let obj := {| is_type := false; class_name := "Hidden";
                params := [("name",
                            plain (OtherType "String") (Some (-1 # 1)))];
                values := [("name", VStr "Hidden00001")];
                set_check := accept_all |} in
  fst (_get_widgets module_names named_objs_spec (panel_of obj))
  = Raise (ValueError "'name' is not in list").
Proof. reflexivity. Qed.

(* ------------------------------------------------------------------ *)
(** * Further properties of JSONInit *)

(** ** The loop over the pairs (lines 182-186) *)

Lemma set_param_raises (name value : Value) (st st' : JSONInit.State)
      (e : exn) :
  JSONInit.set_param name value st = (Raise e, st') -> st' = st.
Proof.
  unfold JSONInit.set_param.
  destruct name; try (intros H; injection H as _ <-; reflexivity).
  destruct (setattr (JSONInit.parameterized st) s value);
    intros H; [ discriminate | injection H as _ <-; reflexivity ].
Qed.

(** The pairs of [l1 ++ l2] are the pairs of [l1], then those of [l2] when
    [l1] did not raise. *)
Lemma set_params_app (to_main : bool) (l1 l2 : dict) :
  forall st,
    JSONInit.set_params to_main (l1 ++ l2) st
    = match JSONInit.set_params to_main l1 st with
      | (Ok _, st1) => JSONInit.set_params to_main l2 st1
      | (Raise e, st1) => (Raise e, st1)
      end.
Proof.
  induction l1 as [ | [name value] l1 IH]; intros st; simpl.
  - reflexivity.
  - destruct (JSONInit.set_param name value st) as [[u | e] st1].
    + apply IH.
    + destruct e; try reflexivity.
      unfold bindM, JSONInit.warning. destruct to_main; apply IH.
Qed.

(** The loop when it cannot raise, by induction on the pairs. *)
Lemma set_params_run (to_main : bool) (items : dict) :
  forall st,
    Settings.string_keys items = true ->
    Settings.only_ValueError (set_check (JSONInit.parameterized st)) ->
    exists st',
      JSONInit.set_params to_main items st = (Ok tt, st')
      /\ (forall n,
             getattr (JSONInit.parameterized st') n
             = match Settings.last_accepted
                       (set_check (JSONInit.parameterized st)) items n with
               | Some v => Ok v
               | None => getattr (JSONInit.parameterized st) n
               end)
      /\ (if to_main
          then JSONInit.main_log st'
               = JSONInit.main_log st
                 ++ Settings.rejections
                      (set_check (JSONInit.parameterized st)) items
               /\ JSONInit.log st' = JSONInit.log st
          else JSONInit.log st'
               = JSONInit.log st
                 ++ Settings.rejections
                      (set_check (JSONInit.parameterized st)) items
               /\ JSONInit.main_log st' = JSONInit.main_log st).
Proof.
  induction items as [ | [name value] rest IH]; intros st Hk Hv.
  - exists st. simpl. split; [ reflexivity | ]. split; [ reflexivity | ].
    rewrite !app_nil_r. destruct to_main; auto.
  - simpl in Hk. apply andb_true_iff in Hk. destruct Hk as [Hname Hk].
    destruct name as [ | | | k | | ]; try discriminate Hname.
    destruct (set_check (JSONInit.parameterized st) k value) as [e | ]
      eqn:Hc.
    + destruct (Hv k value e Hc) as [m ->].
      rewrite (set_params_rejected to_main k value rest m st Hc).
      destruct (IH (snd (JSONInit.warning to_main (JSONInit.msg m) st)))
        as [st' [Hrun [Hget Hlog]]]; [ assumption | | ].
      { destruct to_main; exact Hv. }
      exists st'. split; [ exact Hrun | ]. split.
      * intros n. rewrite Hget. simpl. rewrite Hc.
        assert (E : JSONInit.parameterized
                      (snd (JSONInit.warning to_main (JSONInit.msg m) st))
                    = JSONInit.parameterized st)
          by (destruct to_main; reflexivity).
        rewrite E.
        destruct (Settings.last_accepted _ rest n); [ reflexivity | ].
        destruct (String.eqb k n); reflexivity.
      * simpl. rewrite Hc.
        destruct to_main; simpl in Hlog |- *; destruct Hlog as [H1 H2];
          rewrite H1, H2, <- app_assoc; auto.
    + rewrite (set_params_accepted to_main k value rest st Hc).
      destruct (IH (JSONInit.set_parameterized st
                      (with_values (JSONInit.parameterized st)
                         (assoc_set (values (JSONInit.parameterized st))
                                    k value))))
        as [st' [Hrun [Hget Hlog]]]; [ assumption | exact Hv | ].
      exists st'. split; [ exact Hrun | ]. split.
      * intros n. rewrite Hget. simpl. rewrite Hc.
        destruct (Settings.last_accepted _ rest n); [ reflexivity | ].
        unfold getattr. simpl.
        destruct (String.eqb_spec k n) as [-> | Hne].
        -- rewrite assoc_set_same. reflexivity.
        -- rewrite assoc_set_other by congruence. reflexivity.
      * simpl. rewrite Hc. exact Hlog.
Qed.

(** When every key is a string and the attribute system only rejects with
    [ValueError], the loop of lines 182-186 returns; an attribute then
    holds the value of the last accepted pair of its name, or what it
    held; and the log has one more warning per rejected pair, with the
    error's text, in the order of the pairs. *)
Theorem set_params_outcome (to_main : bool) (items : dict)
        (st : JSONInit.State) :
  Settings.string_keys items = true ->
  Settings.only_ValueError (set_check (JSONInit.parameterized st)) ->
  exists st',
    JSONInit.set_params to_main items st = (Ok tt, st')
    /\ (forall n,
           getattr (JSONInit.parameterized st') n
           = match Settings.last_accepted
                     (set_check (JSONInit.parameterized st)) items n with
             | Some v => Ok v
             | None => getattr (JSONInit.parameterized st) n
             end)
    /\ (if to_main
        then JSONInit.main_log st'
             = JSONInit.main_log st
               ++ Settings.rejections
                    (set_check (JSONInit.parameterized st)) items
             /\ JSONInit.log st' = JSONInit.log st
        else JSONInit.log st'
             = JSONInit.log st
               ++ Settings.rejections
                    (set_check (JSONInit.parameterized st)) items
             /\ JSONInit.main_log st' = JSONInit.main_log st).
Proof. apply set_params_run. Qed.

Lemma int_only_ValueError : Settings.only_ValueError int_only.
Proof.
  intros n v e. unfold int_only.
  destruct (String.eqb n "p1"); [ | discriminate ].
  destruct v; try discriminate; intros H; injection H as <-; eauto.
Qed.

Lemma set_params_outcome_witness :
  exists st',
    JSONInit.set_params false
      [(VStr "p1", VStr "x"); (VStr "p2", VInt 7); (VStr "p1", VInt 3)] st_p
    = (Ok tt, st')
    /\ getattr (JSONInit.parameterized st') "p1" = Ok (VInt 3)
    /\ getattr (JSONInit.parameterized st') "p2" = Ok (VInt 7)
    /\ JSONInit.log st' = [JSONInit.msg "p1 must be an integer"].
Proof.
  destruct (set_params_outcome false
              [(VStr "p1", VStr "x"); (VStr "p2", VInt 7);
               (VStr "p1", VInt 3)] st_p eq_refl int_only_ValueError)
    as [st' [Hrun [Hget [Hlog _]]]].
  exists st'. split; [ exact Hrun | ].
  split; [ exact (Hget "p1") | ].
  split; [ exact (Hget "p2") | exact Hlog ].
Defined.

(** A pair that raises anything but a [ValueError] (a key that is not a
    string, another error of the attribute system) ends the loop with that
    error: the pairs before it stay applied and the pairs after it are
    never looked at. *)
Theorem set_params_abort (to_main : bool) (pre post : dict)
        (name value : Value) (st st1 : JSONInit.State) (e : exn) :
  JSONInit.set_params to_main pre st = (Ok tt, st1) ->
  fst (JSONInit.set_param name value st1) = Raise e ->
  (forall m, e <> ValueError m) ->
  JSONInit.set_params to_main (pre ++ (name, value) :: post) st
  = (Raise e, st1).
Proof.
  intros Hpre Hraise Hne. rewrite set_params_app, Hpre. simpl.
  destruct (JSONInit.set_param name value st1) as [[u | e'] st2] eqn:Hs;
    simpl in Hraise; [ discriminate | ].
  injection Hraise as ->.
  rewrite (set_param_raises _ _ _ _ _ Hs).
  destruct e; try reflexivity.
  exfalso. exact (Hne msg eq_refl).
Qed.

Lemma set_params_abort_witness :
  JSONInit.set_params false
    ([(VStr "p2", VInt 7)] ++ (VInt 3, VInt 1) :: [(VStr "p1", VInt 5)]) st_p
  = (Raise TypeError,
     JSONInit.set_parameterized st_p
       (with_values obj_p [("name", VStr "MyClass00001"); ("p1", VInt 0);
                           ("p2", VInt 7)])).
Proof.
  apply (set_params_abort false [(VStr "p2", VInt 7)]
           [(VStr "p1", VInt 5)] (VInt 3) (VInt 1) st_p).
  - reflexivity.
  - reflexivity.
  - intros m. discriminate.
Defined.

(** ** What a call leaves alone *)

Lemma settled_refl (st : JSONInit.State) : Settings.settled st st.
Proof.
  unfold Settings.settled. repeat split. exists [].
  rewrite !app_nil_r. destruct (is_type _); auto.
Qed.

Lemma settled_trans (st1 st2 st3 : JSONInit.State) :
  Settings.settled st1 st2 -> Settings.settled st2 st3 ->
  Settings.settled st1 st3.
Proof.
  unfold Settings.settled.
  intros [Ht [Hc [Hp [Hs [a1 H1]]]]] [Ht' [Hc' [Hp' [Hs' [a2 H2]]]]].
  rewrite Ht in H2.
  repeat split; try congruence.
  exists (a1 ++ a2).
  destruct (is_type (JSONInit.parameterized st1));
    destruct H1 as [E1 E1'], H2 as [E2 E2']; rewrite app_assoc;
    split; congruence.
Qed.

Lemma warning_settled (m : JSONInit.Msg) (st : JSONInit.State) :
  Settings.settled st
    (snd (JSONInit.warning (is_type (JSONInit.parameterized st)) m st)).
Proof.
  unfold Settings.settled, JSONInit.warning.
  destruct (is_type (JSONInit.parameterized st)) eqn:E; simpl;
    rewrite ?E;
    (split; [ reflexivity | ]); (split; [ reflexivity | ]);
    (split; [ reflexivity | ]); (split; [ reflexivity | ]);
    exists [m]; auto.
Qed.

Lemma set_param_settled (name value : Value) (st : JSONInit.State) :
  Settings.settled st (snd (JSONInit.set_param name value st)).
Proof.
  unfold JSONInit.set_param.
  destruct name; try apply settled_refl.
  unfold setattr.
  destruct (set_check (JSONInit.parameterized st) s value);
    [ apply settled_refl | ].
  unfold Settings.settled. simpl. repeat split. exists [].
  rewrite !app_nil_r. destruct (is_type _); auto.
Qed.

Lemma settled_is_type (st st' : JSONInit.State) :
  Settings.settled st st' ->
  is_type (JSONInit.parameterized st') = is_type (JSONInit.parameterized st).
Proof. intros [H _]. exact H. Qed.

Lemma set_params_settled (items : dict) :
  forall st,
    Settings.settled st
      (snd (JSONInit.set_params (is_type (JSONInit.parameterized st))
                                items st)).
Proof.
  induction items as [ | [name value] rest IH]; intros st; simpl.
  - apply settled_refl.
  - pose proof (set_param_settled name value st) as Hs.
    destruct (JSONInit.set_param name value st) as [[u | e] st1];
      simpl in Hs.
    + eapply settled_trans; [ exact Hs | ].
      rewrite <- (settled_is_type _ _ Hs). apply IH.
    + destruct e; try exact Hs.
      unfold bindM.
      pose proof (warning_settled (JSONInit.msg msg) st1) as Hw.
      rewrite (settled_is_type _ _ Hs) in Hw.
      destruct (JSONInit.warning (is_type (JSONInit.parameterized st))
                                 (JSONInit.msg msg) st1)
        as [[u | e] st2] eqn:Ew; simpl in Hw.
      * eapply settled_trans; [ exact Hs | ].
        eapply settled_trans; [ exact Hw | ].
        assert (Hst : Settings.settled st st2)
          by (eapply settled_trans; eassumption).
        rewrite <- (settled_is_type _ _ Hst). apply IH.
      * eapply settled_trans; eassumption.
Qed.

Lemma read_spec_state (G : list string) (W : JSONInit.Outside)
      (self : JSONInit.Self) (to_main : bool) (env_var : option string)
      (st : JSONInit.State) :
  snd (JSONInit.read_spec G W self to_main env_var st) = st.
Proof.
  unfold JSONInit.read_spec.
  assert (Hl : snd (JSONInit.load_file G W self to_main env_var st) = st).
  { destruct (load_file_cases W self G to_main env_var st) as [[v H] | H];
      rewrite H; reflexivity. }
  destruct (JSONInit.truthy (JSONInit.json_file self)); [ exact Hl | ].
  destruct env_var as [s | ]; [ | reflexivity ].
  destruct (JSONInit.endswith s ".json"); [ exact Hl | ].
  unfold bindM, lift, ret.
  destruct (resolve G "json"); [ | reflexivity ].
  destruct (JSONInit.json_loads W s); reflexivity.
Qed.

Lemma apply_spec_settled (target : string) (spec : Value)
      (st : JSONInit.State) :
  Settings.settled st
    (snd (JSONInit.apply_spec (is_type (JSONInit.parameterized st))
                              target spec st)).
Proof.
  unfold JSONInit.apply_spec.
  destruct spec; try apply warning_settled.
  unfold bindM, lift.
  destruct (dict_contains d (VStr target)) as [found | e];
    [ | apply settled_refl ].
  destruct (if found then dict_get d (VStr target) else Ok (VDict d))
    as [ps | e]; [ | apply settled_refl ].
  destruct (JSONInit.items ps) as [its | e]; [ | apply settled_refl ].
  apply set_params_settled.
Qed.

(** Whatever the namespace, the outside and the parameters of the
    instance, a call only changes values of the target and adds warnings to
    one log: that of [param.main] when the target is a class, that of the
    target otherwise.  Whether the target is a class, its class name, its
    parameter objects, its validation and the other log stay as they
    were. *)
Theorem call_settled (G : list string) (W : JSONInit.Outside)
        (self : JSONInit.Self) (st : JSONInit.State) :
  Settings.settled st (snd (JSONInit.__call__ G W self st)).
Proof.
  unfold JSONInit.__call__.
  assert (Hmain :
            forall to_main,
              to_main = is_type (JSONInit.parameterized st) ->
              Settings.settled st
                (snd ((_ <~ lift (resolve G "os") ;;
                       match JSONInit.environ W (JSONInit.varname self),
                             JSONInit.json_file self with
                       | None, None => ret tt
                       | _, _ =>
                           spec <~ JSONInit.read_spec G W self to_main
                                     (JSONInit.environ W
                                        (JSONInit.varname self)) ;;
                           spec <~ lift (JSONInit.read_local "spec" spec) ;;
                           JSONInit.apply_spec to_main
                             match JSONInit.target self with
                             | Some t => t
                             | None => class_name (JSONInit.parameterized st)
                             end spec
                       end) st))).
  { intros to_main ->. unfold bindM at 1. unfold lift at 1.
    destruct (resolve G "os"); [ | apply settled_refl ].
    assert (Hgo :
              Settings.settled st
                (snd ((spec <~ JSONInit.read_spec G W self
                                 (is_type (JSONInit.parameterized st))
                                 (JSONInit.environ W
                                    (JSONInit.varname self)) ;;
                       spec <~ lift (JSONInit.read_local "spec" spec) ;;
                       JSONInit.apply_spec
                         (is_type (JSONInit.parameterized st))
                         match JSONInit.target self with
                         | Some t => t
                         | None => class_name (JSONInit.parameterized st)
                         end spec) st))).
    { unfold bindM at 1.
      pose proof (read_spec_state G W self
                    (is_type (JSONInit.parameterized st))
                    (JSONInit.environ W (JSONInit.varname self)) st) as Hr.
      destruct (JSONInit.read_spec G W self _ _ st) as [[spec | e] st1];
        simpl in Hr; subst st1; [ | apply settled_refl ].
      unfold bindM, lift.
      destruct (JSONInit.read_local "spec" spec) as [v | e];
        [ | apply settled_refl ].
      apply apply_spec_settled. }
    destruct (JSONInit.environ W (JSONInit.varname self));
      destruct (JSONInit.json_file self);
      try exact Hgo. apply settled_refl. }
  unfold bindM at 1.
  destruct (is_type (JSONInit.parameterized st)) eqn:E.
  - unfold bindM at 1. unfold lift at 1.
    destruct (resolve G "param"); [ | apply settled_refl ].
    unfold ret at 1. apply Hmain. reflexivity.
  - unfold ret at 1. apply Hmain. reflexivity.
Qed.

(** ** Where the settings come from (lines 161-180) *)

Lemma truthy_Some (o : option string) :
  JSONInit.truthy o = true -> exists f, o = Some f.
Proof. destruct o; [ eauto | discriminate ]. Qed.

Section CallParsed.
Variable G : list string.
Variable W : JSONInit.Outside.
Variable self : JSONInit.Self.
Hypothesis os_bound : resolve G "os" = Ok tt.
Hypothesis json_bound : resolve G "json" = Ok tt.
Hypothesis param_bound : resolve G "param" = Ok tt.

Lemma read_spec_parsed (to_main : bool) (st : JSONInit.State) :
  JSONInit.read_spec G W self to_main
    (JSONInit.environ W (JSONInit.varname self)) st
  = match Settings.parsed W self with
    | Some (Ok v) => (Ok (Some v), st)
    | Some (Raise e) =>
        (Raise (if Settings.from_file W self
                then UnboundLocalError "spec" else e), st)
    | None => (Raise AttributeError, st)
    end.
Proof.
  unfold JSONInit.read_spec, JSONInit.load_file, Settings.parsed,
    Settings.from_file.
  rewrite json_bound, os_bound. simpl bind.
  destruct (JSONInit.truthy (JSONInit.json_file self)) eqn:Ht.
  - destruct (truthy_Some _ Ht) as [f ->]. simpl.
    destruct (JSONInit.json_load W f); reflexivity.
  - destruct (JSONInit.environ W (JSONInit.varname self)) as [s | ];
      [ | reflexivity ].
    simpl. destruct (JSONInit.endswith s ".json").
    + destruct (JSONInit.json_load W s); reflexivity.
    + unfold bindM, lift, ret.
      destruct (JSONInit.json_loads W s); reflexivity.
Qed.

Lemma call_read (st : JSONInit.State) :
  JSONInit.__call__ G W self st
  = match JSONInit.environ W (JSONInit.varname self),
          JSONInit.json_file self with
    | None, None => (Ok tt, st)
    | _, _ =>
        match Settings.parsed W self with
        | Some (Ok v) =>
            JSONInit.apply_spec (is_type (JSONInit.parameterized st))
              (Settings.target_key self st) v st
        | Some (Raise e) =>
            (Raise (if Settings.from_file W self
                    then UnboundLocalError "spec" else e), st)
        | None => (Raise AttributeError, st)
        end
    end.
Proof.
  assert (Hgo : forall to_main,
             (spec <~ JSONInit.read_spec G W self to_main
                        (JSONInit.environ W (JSONInit.varname self)) ;;
              spec <~ lift (JSONInit.read_local "spec" spec) ;;
              JSONInit.apply_spec to_main (Settings.target_key self st)
                                  spec) st
             = match Settings.parsed W self with
               | Some (Ok v) =>
                   JSONInit.apply_spec to_main (Settings.target_key self st)
                                       v st
               | Some (Raise e) =>
                   (Raise (if Settings.from_file W self
                           then UnboundLocalError "spec" else e), st)
               | None => (Raise AttributeError, st)
               end).
  { intros to_main. unfold bindM at 1. rewrite read_spec_parsed.
    destruct (Settings.parsed W self) as [[v | e] | ]; reflexivity. }
  unfold JSONInit.__call__. fold (Settings.target_key self st).
  unfold bindM at 1.
  destruct (is_type (JSONInit.parameterized st)).
  - unfold bindM at 1, lift at 1. rewrite param_bound. unfold ret at 1.
    unfold bindM at 1, lift at 1. rewrite os_bound.
    destruct (JSONInit.environ W (JSONInit.varname self));
      destruct (JSONInit.json_file self); try apply Hgo. reflexivity.
  - unfold ret at 1. unfold bindM at 1, lift at 1. rewrite os_bound.
    destruct (JSONInit.environ W (JSONInit.varname self));
      destruct (JSONInit.json_file self); try apply Hgo. reflexivity.
Qed.

Lemma parsed_Some (r : result Value) :
  Settings.parsed W self = Some r ->
  JSONInit.environ W (JSONInit.varname self) <> None
  \/ JSONInit.json_file self <> None.
Proof.
  unfold Settings.parsed.
  destruct (JSONInit.json_file self) as [f | ]; [ right; discriminate | ].
  simpl.
  destruct (JSONInit.environ W (JSONInit.varname self));
    [ left; discriminate | discriminate ].
Qed.

Lemma call_parsed (st : JSONInit.State) (r : result Value) :
  Settings.parsed W self = Some r ->
  JSONInit.__call__ G W self st
  = match r with
    | Ok v => JSONInit.apply_spec (is_type (JSONInit.parameterized st))
                (Settings.target_key self st) v st
    | Raise e => (Raise (if Settings.from_file W self
                         then UnboundLocalError "spec" else e), st)
    end.
Proof.
  intros Hp. rewrite call_read, Hp.
  destruct (parsed_Some r Hp) as [H | H];
    destruct (JSONInit.environ W (JSONInit.varname self));
    destruct (JSONInit.json_file self); congruence.
Qed.
End CallParsed.

(** With the names it uses bound, a call whose source cannot be loaded or
    parsed raises and changes nothing: for a file the error is the unbound
    local [spec] of the handler (line 169), whatever made the load fail,
    and no warning is logged; for the text of the variable it is the
    parser's own error (line 171). *)
Theorem call_unparsable (G : list string) (W : JSONInit.Outside)
        (self : JSONInit.Self) (st : JSONInit.State) (e : exn) :
  resolve G "os" = Ok tt -> resolve G "json" = Ok tt ->
  resolve G "param" = Ok tt ->
  Settings.parsed W self = Some (Raise e) ->
  JSONInit.__call__ G W self st
  = (Raise (if Settings.from_file W self
            then UnboundLocalError "spec" else e), st).
Proof.
  intros Hos Hjson Hparam Hp.
  rewrite (call_parsed G W self Hos Hjson Hparam st _ Hp). reflexivity.
Qed.

Lemma call_unparsable_witness :
  JSONInit.__call__ completed_names outside_missing_file json_init st_p
  = (Raise (UnboundLocalError "spec"), st_p)
  /\ JSONInit.__call__ completed_names outside_not_json json_init st_p
     = (Raise (ValueError "Expecting value"), st_p).
Proof.
  split.
  - exact (call_unparsable completed_names outside_missing_file json_init
             st_p OSError eq_refl eq_refl eq_refl eq_refl).
  - exact (call_unparsable completed_names outside_not_json json_init
             st_p (ValueError "Expecting value")
             eq_refl eq_refl eq_refl eq_refl).
Defined.

(** With the names bound and nothing to parse: when [json_file] is [None]
    the call returns and changes nothing; when it is the empty string (not
    [None], yet false at line 164) and the variable is unset, line 164
    calls [endswith] on [None] and the call raises. *)
Theorem call_nothing_to_parse (G : list string) (W : JSONInit.Outside)
        (self : JSONInit.Self) (st : JSONInit.State) :
  resolve G "os" = Ok tt -> resolve G "json" = Ok tt ->
  resolve G "param" = Ok tt ->
  Settings.parsed W self = None ->
  JSONInit.__call__ G W self st
  = (match JSONInit.json_file self with
     | None => Ok tt
     | Some _ => Raise AttributeError
     end, st).
Proof.
  intros Hos Hjson Hparam Hp.
  rewrite (call_read G W self Hos Hjson Hparam st), Hp.
  unfold Settings.parsed in Hp.
  destruct (JSONInit.json_file self) as [f | ].
  - destruct (JSONInit.truthy (Some f)); [ discriminate | ].
    destruct (JSONInit.environ W (JSONInit.varname self));
      [ discriminate | reflexivity ].
  - simpl in Hp.
    destruct (JSONInit.environ W (JSONInit.varname self));
      [ discriminate | reflexivity ].
Qed.

Lemma call_nothing_to_parse_witness :
  JSONInit.__call__ completed_names outside_unset
    {| JSONInit.varname := "PARAM_JSON_INIT"; JSONInit.target := None;
       JSONInit.json_file := Some EmptyString |} st_p
  = (Raise AttributeError, st_p)
  /\ JSONInit.__call__ completed_names outside_unset json_init st_p
     = (Ok tt, st_p).
Proof.
  split.
  - exact (call_nothing_to_parse completed_names outside_unset
             {| JSONInit.varname := "PARAM_JSON_INIT";
                JSONInit.target := None;
                JSONInit.json_file := Some EmptyString |} st_p
             eq_refl eq_refl eq_refl eq_refl).
  - exact (call_nothing_to_parse completed_names outside_unset json_init
             st_p eq_refl eq_refl eq_refl eq_refl).
Defined.

(** With the names bound, a parsed document that is not a dict leaves
    every value alone and logs exactly one warning, on [param.main] for a
    class and on the target otherwise; the call returns. *)
Theorem call_not_a_dict (G : list string) (W : JSONInit.Outside)
        (self : JSONInit.Self) (st : JSONInit.State) (v : Value) :
  resolve G "os" = Ok tt -> resolve G "json" = Ok tt ->
  resolve G "param" = Ok tt ->
  Settings.parsed W self = Some (Ok v) ->
  is_dict v = false ->
  JSONInit.__call__ G W self st
  = (Ok tt,
     let m := JSONInit.msg
                "JSON parameter specification must be a dictionary." in
     if is_type (JSONInit.parameterized st)
     then {| JSONInit.parameterized := JSONInit.parameterized st;
             JSONInit.log := JSONInit.log st;
             JSONInit.main_log := JSONInit.main_log st ++ [m] |}
     else {| JSONInit.parameterized := JSONInit.parameterized st;
             JSONInit.log := JSONInit.log st ++ [m];
             JSONInit.main_log := JSONInit.main_log st |}).
Proof.
  intros Hos Hjson Hparam Hp Hd.
  rewrite (call_parsed G W self Hos Hjson Hparam st _ Hp).
  unfold JSONInit.apply_spec, JSONInit.warning.
  destruct v; try discriminate Hd;
    destruct (is_type (JSONInit.parameterized st)); reflexivity.
Qed.

(** The pairs a call applies, by cases on the target key. *)
Lemma call_picks (G : list string) (W : JSONInit.Outside)
        (self : JSONInit.Self) (st : JSONInit.State) (d : dict) :
  resolve G "os" = Ok tt -> resolve G "json" = Ok tt ->
  resolve G "param" = Ok tt ->
  Settings.parsed W self = Some (Ok (VDict d)) ->
  JSONInit.__call__ G W self st
  = match find_key d (VStr (Settings.target_key self st)) with
    | Some (VDict d') =>
        JSONInit.set_params (is_type (JSONInit.parameterized st)) d' st
    | Some _ => (Raise AttributeError, st)
    | None =>
        JSONInit.set_params (is_type (JSONInit.parameterized st)) d st
    end.
Proof.
  intros Hos Hjson Hparam Hp.
  rewrite (call_parsed G W self Hos Hjson Hparam st _ Hp).
  unfold JSONInit.apply_spec, bindM, lift, dict_contains, dict_get.
  simpl hashable. cbv iota.
  destruct (find_key d (VStr (Settings.target_key self st))) as [v | ].
  - destruct v; reflexivity.
  - reflexivity.
Qed.

(** With the names bound and a dict parsed: when the dict has the target
    key (the configured [target], else the class name), the pairs applied
    are those of the value under that key, and a value that is not a dict
    there makes the call raise at [params.items()] without changing
    anything; when the dict does not have the key, the pairs applied are
    those of the dict itself. *)
Theorem call_target (G : list string) (W : JSONInit.Outside)
        (self : JSONInit.Self) (st : JSONInit.State) (d : dict) :
  resolve G "os" = Ok tt -> resolve G "json" = Ok tt ->
  resolve G "param" = Ok tt ->
  Settings.parsed W self = Some (Ok (VDict d)) ->
  JSONInit.__call__ G W self st
  = match find_key d (VStr (Settings.target_key self st)) with
    | Some (VDict d') =>
        JSONInit.set_params (is_type (JSONInit.parameterized st)) d' st
    | Some _ => (Raise AttributeError, st)
    | None =>
        JSONInit.set_params (is_type (JSONInit.parameterized st)) d st
    end.
Proof. apply call_picks. Qed.

Import Cases.

Lemma call_not_a_dict_witness :
  JSONInit.__call__ completed_names outside_list json_init st_p
  = (Ok tt,
     {| JSONInit.parameterized := obj_p;
        JSONInit.log :=
          [JSONInit.msg
             "JSON parameter specification must be a dictionary."];
        JSONInit.main_log := [] |})
  /\ JSONInit.__call__ completed_names outside_list json_init st_class
     = (Ok tt,
        {| JSONInit.parameterized := JSONInit.parameterized st_class;
           JSONInit.log := [];
           JSONInit.main_log :=
             [JSONInit.msg
                "JSON parameter specification must be a dictionary."] |}).
Proof.
  split.
  - exact (call_not_a_dict completed_names outside_list json_init st_p
             (VList [VInt 1; VInt 2])
             eq_refl eq_refl eq_refl eq_refl eq_refl).
  - exact (call_not_a_dict completed_names outside_list json_init st_class
             (VList [VInt 1; VInt 2])
             eq_refl eq_refl eq_refl eq_refl eq_refl).
Defined.

Lemma call_target_witness :
  JSONInit.__call__ completed_names outside_nested json_init st_p
  = JSONInit.set_params false [(VStr "p1", VInt 5)] st_p
  /\ JSONInit.__call__ completed_names outside_flat json_init st_p
     = JSONInit.set_params false [(VStr "p1", VInt 5)] st_p
  /\ JSONInit.__call__ completed_names
       (outside_text "x" (VDict [(VStr "MyClass", VInt 5)])) json_init st_p
     = (Raise AttributeError, st_p).
Proof.
  split; [ | split ].
  - exact (call_target completed_names outside_nested json_init st_p nested
             eq_refl eq_refl eq_refl eq_refl).
  - exact (call_target completed_names outside_flat json_init st_p
             [(VStr "p1", VInt 5)] eq_refl eq_refl eq_refl eq_refl).
  - exact (call_target completed_names
             (outside_text "x" (VDict [(VStr "MyClass", VInt 5)]))
             json_init st_p [(VStr "MyClass", VInt 5)]
             eq_refl eq_refl eq_refl eq_refl).
Defined.

(** With the names bound, a dict parsed, string keys in the pairs chosen
    by the target key and an attribute system that only rejects with
    [ValueError]: the call returns, every attribute holds the value of the
    last accepted pair of its name (or what it held), and parameter
    objects, class name and validation are as before. *)
Theorem call_applies (G : list string) (W : JSONInit.Outside)
        (self : JSONInit.Self) (st : JSONInit.State) (d items : dict) :
  resolve G "os" = Ok tt -> resolve G "json" = Ok tt ->
  resolve G "param" = Ok tt ->
  Settings.parsed W self = Some (Ok (VDict d)) ->
  (find_key d (VStr (Settings.target_key self st)) = None /\ items = d)
  \/ find_key d (VStr (Settings.target_key self st)) = Some (VDict items) ->
  Settings.string_keys items = true ->
  Settings.only_ValueError (set_check (JSONInit.parameterized st)) ->
  exists st',
    JSONInit.__call__ G W self st = (Ok tt, st')
    /\ (forall n,
           getattr (JSONInit.parameterized st') n
           = match Settings.last_accepted
                     (set_check (JSONInit.parameterized st)) items n with
             | Some v => Ok v
             | None => getattr (JSONInit.parameterized st) n
             end)
    /\ params (JSONInit.parameterized st')
       = params (JSONInit.parameterized st).
Proof.
  intros Hos Hjson Hparam Hp Hsel Hk Hv.
  destruct (set_params_run (is_type (JSONInit.parameterized st))
              items st Hk Hv) as [st' [Hrun [Hget _]]].
  exists st'. split; [ | split ].
  - rewrite (call_picks G W self st d Hos Hjson Hparam Hp).
    destruct Hsel as [[Hnone ->] | Hsome].
    + rewrite Hnone. exact Hrun.
    + rewrite Hsome. exact Hrun.
  - exact Hget.
  - pose proof (set_params_settled items st) as Hs.
    rewrite Hrun in Hs. destruct Hs as [_ [_ [Hpar _]]]. exact Hpar.
Qed.

Lemma call_applies_witness :
  exists st',
    JSONInit.__call__ completed_names outside_nested json_init st_p
    = (Ok tt, st')
    /\ getattr (JSONInit.parameterized st') "p1" = Ok (VInt 5)
    /\ getattr (JSONInit.parameterized st') "p2" = Ok (VInt 0).
Proof.
  destruct (call_applies completed_names outside_nested json_init st_p
              nested [(VStr "p1", VInt 5)]
              eq_refl eq_refl eq_refl eq_refl (or_intror eq_refl)
              eq_refl int_only_ValueError) as [st' [Hrun [Hget _]]].
  exists st'. split; [ exact Hrun | ].
  split; [ exact (Hget "p1") | exact (Hget "p2") ].
Defined.

(** A non-empty [json_file] takes precedence: what the variable holds and
    how its text would parse make no difference to the call. *)
Theorem json_file_precedence (G : list string) (W W' : JSONInit.Outside)
        (self : JSONInit.Self) (st : JSONInit.State) :
  JSONInit.truthy (JSONInit.json_file self) = true ->
  (forall f, JSONInit.json_load W f = JSONInit.json_load W' f) ->
  JSONInit.__call__ G W self st = JSONInit.__call__ G W' self st.
Proof.
  intros Ht Hl. destruct (truthy_Some _ Ht) as [f Hf].
  unfold JSONInit.__call__, JSONInit.read_spec, JSONInit.load_file.
  rewrite Ht, Hf, Hl.
  destruct (JSONInit.environ W (JSONInit.varname self));
    destruct (JSONInit.environ W' (JSONInit.varname self)); reflexivity.
Qed.

Lemma json_file_precedence_witness :
  JSONInit.__call__ completed_names outside_unset json_init_file st_p
  = JSONInit.__call__ completed_names outside_nested json_init_file st_p.
Proof.
  apply (json_file_precedence completed_names outside_unset outside_nested
           json_init_file st_p).
  - reflexivity.
  - intros f. reflexivity.
Defined.

(* ------------------------------------------------------------------ *)
(** * Further properties of ParamPanel *)

Import Options.

(** ** widget on an attribute without options *)

(** Lines 60-94 when lines 75-87 are skipped. *)
Lemma widget_no_options (G : list string)
        (named_objs : dict -> result (list (Value * Value)))
        (self : Self) (p_name : string) (p_obj : ParameterObj)
        (c : WidgetClass) (v : Value) :
  resolve G "partial" = Ok tt ->
  params_of (object self) p_name = Ok p_obj ->
  _mapping (ptype p_obj) = Some c ->
  getattr (object self) p_name = Ok v ->
  get_range p_obj = None \/ is_dict v = true ->
  widget G named_objs p_name self
  = (Ok (built self p_name p_obj c v None), self).
Proof.
  intros Hpartial Hp Hm Hv Hr.
  unfold widget, bindM, lift, ret, mapping_get, built.
  rewrite Hp, Hm, Hv, Hpartial. cbn [kw_value].
  destruct (get_range p_obj) as [items | ].
  - destruct Hr as [Hr | Hr]; [ discriminate | ]. rewrite Hr. cbn.
    destruct (get_soft_bounds p_obj) as [[lo hi] | ]; reflexivity.
  - destruct (get_soft_bounds p_obj) as [[lo hi] | ]; reflexivity.
Qed.

(** For an attribute of a mapped kind that has no range, or whose value is
    a dict, [widget] returns a control of the mapped class that carries
    the current value as it is, the formatted label (the raw name without
    a formatter), no options, and the soft bounds as [start] and [end]
    when the attribute has them; the panel is not modified. *)
Theorem widget_plain (G : list string)
        (named_objs : dict -> result (list (Value * Value)))
        (self : Self) (p_name : string) (p_obj : ParameterObj)
        (c : WidgetClass) (v : Value) :
  resolve G "partial" = Ok tt ->
  params_of (object self) p_name = Ok p_obj ->
  _mapping (ptype p_obj) = Some c ->
  getattr (object self) p_name = Ok v ->
  get_range p_obj = None \/ is_dict v = true ->
  widget G named_objs p_name self
  = (Ok (built self p_name p_obj c v None), self).
Proof. apply widget_no_options. Qed.

Lemma widget_plain_witness :
  widget module_names named_objs_spec "x" (panel_of obj_bounded)
  = (Ok {| widget_class := FloatSlider;
           kw := {| kw_value := VInt 3; kw_name := "x";
                    kw_options := None;
                    kw_start := Some (VInt 0);
                    kw_end := Some (VInt 10) |};
           watchers := [("value", "value", partial_apply_change "x")] |},
     panel_of obj_bounded).
Proof.
  apply (widget_plain module_names named_objs_spec (panel_of obj_bounded)
           "x" _ FloatSlider (VInt 3)
           eq_refl eq_refl eq_refl eq_refl (or_introl eq_refl)).
Defined.

(** ** widget on an attribute with options, where [named_objs] is bound *)

Lemma py_eq_refl (a : Value) : hashable a = true -> py_eq a a = true.
Proof.
  destruct a; simpl; try discriminate; intros _.
  - reflexivity.
  - apply Bool.eqb_reflx.
  - apply Z.eqb_refl.
  - apply String.eqb_refl.
Qed.

Lemma all_hashable_parts (options : list (Value * Value)) :
  all_hashable options = true ->
  forallb (fun kv => hashable (fst kv)) options = true
  /\ forallb (fun kv => hashable (snd kv)) options = true.
Proof.
  unfold all_hashable. rewrite !forallb_forall. intros H.
  split; intros x Hx; specialize (H x Hx);
    apply andb_true_iff in H; tauto.
Qed.

(** A comprehension keyed by the labels: a label reads the value of the
    last pair that carries it. *)
Lemma dict_comp_from_last_value (options : list (Value * Value)) :
  forall (acc d : dict) (k : Value),
    dict_comp_from fst snd options acc = Ok d ->
    find_key d k = match last_value options k with
                   | Some x => Some x
                   | None => find_key acc k
                   end.
Proof.
  induction options as [ | [k' v] rest IH]; intros acc d k H; simpl in *.
  - injection H as <-. reflexivity.
  - unfold dict_set in H. destruct (hashable k'); [ | discriminate ].
    simpl in H. rewrite (IH _ _ k H).
    destruct (last_value rest k); [ reflexivity | ].
    rewrite find_key_store. destruct (py_eq k' k); reflexivity.
Qed.

Lemma lookup_of_find (options : list (Value * Value)) (lookup : dict)
      (v : Value) :
  lookup_of options = Ok lookup ->
  find_key lookup v = last_label options v.
Proof.
  intros H. unfold lookup_of, dict_comp in H.
  rewrite (dict_comp_from_last options [] lookup v H).
  destruct (last_label options v); reflexivity.
Qed.

Section WithOptions.
Variable G : list string.
Variable named_objs : dict -> result (list (Value * Value)).
Variable self : Self.
Variable p_name : string.
Variable p_obj : ParameterObj.
Variable c : WidgetClass.
Variable items : dict.
Variable v : Value.
Variable options : list (Value * Value).
Hypothesis named_objs_bound : resolve G "named_objs" = Ok tt.
Hypothesis partial_bound : resolve G "partial" = Ok tt.
Hypothesis Hp : params_of (object self) p_name = Ok p_obj.
Hypothesis Hm : _mapping (ptype p_obj) = Some c.
Hypothesis Hv : getattr (object self) p_name = Ok v.
Hypothesis Hr : get_range p_obj = Some items.
Hypothesis Hd : is_dict v = false.
Hypothesis Ho : named_objs items = Ok options.
Hypothesis Hh : all_hashable options = true.

Lemma widget_with_options :
  exists lookup opt_lookup,
    lookup_of options = Ok lookup
    /\ dict_comp fst snd options = Ok opt_lookup
    /\ widget G named_objs p_name self
       = match shown_value G p_obj lookup v with
         | Ok shown =>
             (Ok (built self p_name p_obj c shown
                    (Some (map (fun kv => (fst kv, fst kv)) options))),
              set_widget_options self
                (store (_widget_options self) (VStr p_name)
                       (VDict opt_lookup)))
         | Raise e => (Raise e, self)
         end.
Proof.
  destruct (all_hashable_parts options Hh) as [Hk Hvs].
  destruct (dict_comp_from_total snd fst options [] Hvs) as [lookup Hl].
  destruct (dict_comp_from_total fst snd options [] Hk) as [opt Hopt].
  exists lookup, opt. split; [ exact Hl | ]. split; [ exact Hopt | ].
  unfold widget, bindM, lift, ret, mapping_get, built.
  rewrite Hp, Hm, Hv, Hr. cbn [kw_value]. rewrite Hd. cbn [negb].
  unfold range_branch, bindM, lift, ret.
  rewrite named_objs_bound, Ho. cbn [kw_value].
  unfold lookup_of, dict_comp. rewrite Hl.
  destruct (shown_value G p_obj lookup v) as [shown | e];
    [ | reflexivity ].
  unfold dict_comp in Hopt |- *. rewrite Hopt.
  unfold dict_set. cbn [hashable]. rewrite partial_bound.
  destruct (get_soft_bounds p_obj) as [[lo hi] | ]; reflexivity.
Qed.
End WithOptions.

(** With [named_objs], [param] and [partial] bound, for an attribute of a
    mapped kind with a range and a value that is neither a dict nor a list
    and is the value of some pair: [widget] returns a control of the mapped
    class whose value is the label of the last pair with that value, whose
    options are the pairs (label, label) in the order of the range, and the
    cache then holds, under the attribute's name, the dict that reads each
    label as the value of the last pair with that label. *)
Theorem widget_in_range (G : list string)
        (named_objs : dict -> result (list (Value * Value)))
        (self : Self) (p_name : string) (p_obj : ParameterObj)
        (c : WidgetClass) (items : dict) (v label : Value)
        (options : list (Value * Value)) :
  resolve G "named_objs" = Ok tt -> resolve G "partial" = Ok tt ->
  resolve G "param" = Ok tt ->
  params_of (object self) p_name = Ok p_obj ->
  _mapping (ptype p_obj) = Some c ->
  getattr (object self) p_name = Ok v ->
  get_range p_obj = Some items ->
  is_dict v = false -> is_list v = false -> hashable v = true ->
  isinstance_FileSelector p_obj && is_None v = false ->
  named_objs items = Ok options ->
  all_hashable options = true ->
  last_label options v = Some label ->
  exists self' opt_lookup,
    widget G named_objs p_name self
    = (Ok (built self p_name p_obj c label
             (Some (map (fun kv => (fst kv, fst kv)) options))), self')
    /\ object self' = object self
    /\ dict_get (_widget_options self') (VStr p_name)
       = Ok (VDict opt_lookup)
    /\ (forall k, hashable k = true ->
                  dict_get opt_lookup k
                  = match last_value options k with
                    | Some x => Ok x
                    | None => Raise KeyError
                    end).
Proof.
  intros Hn Hpartial Hparam Hp Hm Hv Hr Hd Hl Hhv Hfs Ho Hh Hlast.
  destruct (widget_with_options G named_objs self p_name p_obj c items v
              options Hn Hpartial Hp Hm Hv Hr Hd Ho Hh)
    as [lookup [opt [Hlookup [Hopt Hw]]]].
  assert (Hshown : shown_value G p_obj lookup v = Ok label).
  { unfold shown_value. rewrite Hparam, Hfs. simpl bind.
    unfold dict_get. rewrite Hhv, (lookup_of_find _ _ v Hlookup), Hlast.
    destruct v; try reflexivity; discriminate. }
  rewrite Hshown in Hw.
  eexists. exists opt. split; [ exact Hw | ]. split; [ reflexivity | ].
  split.
  - unfold dict_get. cbn [hashable _widget_options set_widget_options].
    rewrite find_key_store. cbn [py_eq]. rewrite String.eqb_refl.
    reflexivity.
  - intros k Hk. unfold dict_get. rewrite Hk.
    unfold dict_comp in Hopt.
    rewrite (dict_comp_from_last_value options [] opt k Hopt).
    destruct (last_value options k); reflexivity.
Qed.

Lemma widget_in_range_witness :
  exists self' opt_lookup,
    widget completed_names named_objs_spec "level" (panel_of obj_level)
    = (Ok (built (panel_of obj_level) "level"
             (with_items Selector None low_high) Select (VStr "High")
             (Some [(VStr "Low", VStr "Low"); (VStr "High", VStr "High")])),
       self')
    /\ object self' = obj_level
    /\ dict_get (_widget_options self') (VStr "level")
       = Ok (VDict opt_lookup)
    /\ (forall k, hashable k = true ->
                  dict_get opt_lookup k
                  = match last_value low_high k with
                    | Some x => Ok x
                    | None => Raise KeyError
                    end).
Proof.
  apply (widget_in_range completed_names named_objs_spec
           (panel_of obj_level) "level"
           (with_items Selector None low_high) Select low_high (VInt 2)
           (VStr "High") low_high);
    reflexivity.
Defined.

(** With the same names bound, a value that is no pair's value makes
    [widget] raise the lookup error of line 83 before the cache is
    written: the panel is not modified. *)
Theorem widget_out_of_range (G : list string)
        (named_objs : dict -> result (list (Value * Value)))
        (self : Self) (p_name : string) (p_obj : ParameterObj)
        (c : WidgetClass) (items : dict) (v : Value)
        (options : list (Value * Value)) :
  resolve G "named_objs" = Ok tt -> resolve G "partial" = Ok tt ->
  resolve G "param" = Ok tt ->
  params_of (object self) p_name = Ok p_obj ->
  _mapping (ptype p_obj) = Some c ->
  getattr (object self) p_name = Ok v ->
  get_range p_obj = Some items ->
  is_dict v = false -> is_list v = false -> hashable v = true ->
  isinstance_FileSelector p_obj && is_None v = false ->
  named_objs items = Ok options ->
  all_hashable options = true ->
  last_label options v = None ->
  widget G named_objs p_name self = (Raise KeyError, self).
Proof.
  intros Hn Hpartial Hparam Hp Hm Hv Hr Hd Hl Hhv Hfs Ho Hh Hlast.
  destruct (widget_with_options G named_objs self p_name p_obj c items v
              options Hn Hpartial Hp Hm Hv Hr Hd Ho Hh)
    as [lookup [opt [Hlookup [Hopt Hw]]]].
  assert (Hshown : shown_value G p_obj lookup v = Raise KeyError).
  { unfold shown_value. rewrite Hparam, Hfs. simpl bind.
    unfold dict_get. rewrite Hhv, (lookup_of_find _ _ v Hlookup), Hlast.
    destruct v; try reflexivity; discriminate. }
  rewrite Hshown in Hw. exact Hw.
Qed.

Lemma widget_out_of_range_witness :
  widget completed_names named_objs_spec "level" (panel_of obj_level_out)
  = (Raise KeyError, panel_of obj_level_out).
Proof.
  apply (widget_out_of_range completed_names named_objs_spec
           (panel_of obj_level_out) "level"
           (with_items Selector None low_high) Select low_high (VInt 3)
           low_high);
    reflexivity.
Defined.

Lemma mapM_labels (options : list (Value * Value)) (lookup : dict)
      (vs labels : list Value) :
  lookup_of options = Ok lookup ->
  Forall2 (fun x l => hashable x = true /\ last_label options x = Some l)
          vs labels ->
  mapM (dict_get lookup) vs = Ok labels.
Proof.
  intros Hl H. induction H as [ | x l vs labels [Hx Hlast] _ IH]; simpl.
  - reflexivity.
  - unfold dict_get at 1.
    rewrite Hx, (lookup_of_find _ _ x Hl), Hlast. simpl.
    rewrite IH. reflexivity.
Qed.

(** With [named_objs] and [partial] bound, a value that is a list (a
    multiple selection) is shown as the list of the labels of its
    elements, one label per element and in the same order, each the label
    of the last pair with that element as its value. *)
Theorem widget_list_value (G : list string)
        (named_objs : dict -> result (list (Value * Value)))
        (self : Self) (p_name : string) (p_obj : ParameterObj)
        (c : WidgetClass) (items : dict) (vs labels : list Value)
        (options : list (Value * Value)) :
  resolve G "named_objs" = Ok tt -> resolve G "partial" = Ok tt ->
  params_of (object self) p_name = Ok p_obj ->
  _mapping (ptype p_obj) = Some c ->
  getattr (object self) p_name = Ok (VList vs) ->
  get_range p_obj = Some items ->
  named_objs items = Ok options ->
  all_hashable options = true ->
  Forall2 (fun x l => hashable x = true /\ last_label options x = Some l)
          vs labels ->
  exists self',
    widget G named_objs p_name self
    = (Ok (built self p_name p_obj c (VList labels)
             (Some (map (fun kv => (fst kv, fst kv)) options))), self')
    /\ object self' = object self.
Proof.
  intros Hn Hpartial Hp Hm Hv Hr Ho Hh Hall.
  destruct (widget_with_options G named_objs self p_name p_obj c items
              (VList vs) options Hn Hpartial Hp Hm Hv Hr eq_refl Ho Hh)
    as [lookup [opt [Hlookup [Hopt Hw]]]].
  assert (Hshown : shown_value G p_obj lookup (VList vs)
                   = Ok (VList labels)).
  { unfold shown_value.
    rewrite (mapM_labels options lookup vs labels Hlookup Hall).
    reflexivity. }
  rewrite Hshown in Hw. eexists. split; [ exact Hw | reflexivity ].
Qed.

Lemma widget_list_value_witness :
  exists self',
    widget completed_names named_objs_spec "levels" (panel_of obj_multi)
    = (Ok (built (panel_of obj_multi) "levels"
             (with_items ListSelector None low_high) MultiSelect
             (VList [VStr "High"; VStr "Low"])
             (Some [(VStr "Low", VStr "Low"); (VStr "High", VStr "High")])),
       self')
    /\ object self' = obj_multi.
Proof.
  apply (widget_list_value completed_names named_objs_spec
           (panel_of obj_multi) "levels"
           (with_items ListSelector None low_high) MultiSelect low_high
           [VInt 2; VInt 1] [VStr "High"; VStr "Low"] low_high);
    try reflexivity.
  repeat constructor.
Defined.

(** ** The two lookups of lines 77 and 84 *)

Lemma last_label_In (options : list (Value * Value)) (v label : Value) :
  last_label options v = Some label ->
  exists v2, In (label, v2) options /\ py_eq v2 v = true.
Proof.
  induction options as [ | [k v'] rest IH]; simpl; [ discriminate | ].
  destruct (last_label rest v) as [l | ].
  - intros H. injection H as ->.
    destruct (IH eq_refl) as [v2 [Hin Heq]]. eauto.
  - destruct (py_eq v' v) eqn:E; [ | discriminate ].
    intros H. injection H as ->. eauto.
Qed.

Lemma last_label_Some (options : list (Value * Value)) (k v : Value) :
  In (k, v) options -> hashable v = true ->
  exists label, last_label options v = Some label.
Proof.
  induction options as [ | [k' v'] rest IH]; simpl; [ contradiction | ].
  intros [E | Hin] Hv.
  - injection E as -> ->.
    destruct (last_label rest v); [ eauto | ].
    rewrite (py_eq_refl v Hv). eauto.
  - destruct (IH Hin Hv) as [l ->]. eauto.
Qed.

Lemma last_value_absent (rest : list (Value * Value)) (k : Value) :
  existsb (fun kv => py_eq (fst kv) k) rest = false ->
  last_value rest k = None.
Proof.
  induction rest as [ | [k' v] rest IH]; simpl; [ reflexivity | ].
  intros H. apply orb_false_iff in H. destruct H as [H1 H2].
  rewrite (IH H2), H1. reflexivity.
Qed.

Lemma distinct_last_value (options : list (Value * Value))
      (label v : Value) :
  distinct_labels options = true -> hashable label = true ->
  In (label, v) options -> last_value options label = Some v.
Proof.
  induction options as [ | [k' v'] rest IH]; simpl; [ contradiction | ].
  intros Hd Hh [E | Hin].
  - injection E as -> ->.
    apply andb_true_iff in Hd. destruct Hd as [Hd _].
    apply negb_true_iff in Hd.
    rewrite (last_value_absent rest label Hd), (py_eq_refl label Hh).
    reflexivity.
  - apply andb_true_iff in Hd. destruct Hd as [_ Hd].
    rewrite (IH Hd Hh Hin). reflexivity.
Qed.

(** When the labels are pairwise different and labels and values are
    hashable, both lookups are built and fit each other: the value of any
    pair reads a label in the reverse lookup, and that label reads, in the
    cached lookup, a value equal to the one started from. *)
Theorem lookup_round_trip (options : list (Value * Value)) :
  distinct_labels options = true ->
  all_hashable options = true ->
  exists lookup opt_lookup,
    lookup_of options = Ok lookup
    /\ dict_comp fst snd options = Ok opt_lookup
    /\ forall k v, In (k, v) options ->
         exists label v',
           dict_get lookup v = Ok label
           /\ dict_get opt_lookup label = Ok v'
           /\ py_eq v' v = true.
Proof.
  intros Hd Hh.
  destruct (all_hashable_parts options Hh) as [Hk Hvs].
  destruct (dict_comp_from_total snd fst options [] Hvs) as [lookup Hl].
  destruct (dict_comp_from_total fst snd options [] Hk) as [opt Hopt].
  exists lookup, opt. split; [ exact Hl | ]. split; [ exact Hopt | ].
  intros k v Hin.
  assert (Hv : hashable v = true).
  { rewrite forallb_forall in Hvs. exact (Hvs _ Hin). }
  destruct (last_label_Some options k v Hin Hv) as [label Hlast].
  destruct (last_label_In options v label Hlast) as [v2 [Hin2 Heq]].
  assert (Hlab : hashable label = true).
  { rewrite forallb_forall in Hk. exact (Hk _ Hin2). }
  exists label, v2. split; [ | split; [ | exact Heq ] ].
  - unfold dict_get. rewrite Hv, (lookup_of_find _ _ v Hl), Hlast.
    reflexivity.
  - unfold dict_get. rewrite Hlab.
    rewrite (dict_comp_from_last_value options [] opt label Hopt).
    rewrite (distinct_last_value options label v2 Hd Hlab Hin2).
    reflexivity.
Qed.

Lemma lookup_round_trip_witness :
  exists lookup opt_lookup,
    lookup_of three_labels = Ok lookup
    /\ dict_comp fst snd three_labels = Ok opt_lookup
    /\ forall k v, In (k, v) three_labels ->
         exists label v',
           dict_get lookup v = Ok label
           /\ dict_get opt_lookup label = Ok v'
           /\ py_eq v' v = true.
Proof. apply (lookup_round_trip three_labels); reflexivity. Defined.

(** With one label for two values the lookups do not fit: the value 1
    reads the label A, and A reads the value 2. *)
Example one_label_two_values_mismatch :
  exists lookup opt_lookup,
    lookup_of one_label_two_values = Ok lookup
    /\ dict_comp fst snd one_label_two_values = Ok opt_lookup
    /\ dict_get lookup (VInt 1) = Ok (VStr "A")
    /\ dict_get opt_lookup (VStr "A") = Ok (VInt 2).
Proof. do 2 eexists. repeat split. Qed.

(** ** What widget leaves alone *)

Lemma range_branch_frame (G : list string)
      (named_objs : dict -> result (list (Value * Value)))
      (p_name : string) (p_obj : ParameterObj) (items : dict) (kw0 : Kw)
      (self : Self) :
  snd (range_branch G named_objs p_name p_obj items kw0 self) = self
  \/ exists d,
       snd (range_branch G named_objs p_name p_obj items kw0 self)
       = set_widget_options self
           (store (_widget_options self) (VStr p_name) (VDict d)).
Proof.
  unfold range_branch, bindM, lift, ret.
  destruct (resolve G "named_objs"); [ | left; reflexivity ].
  destruct (named_objs items) as [options | e]; [ | left; reflexivity ].
  destruct (lookup_of options) as [lookup | e]; [ | left; reflexivity ].
  destruct (shown_value G p_obj lookup (kw_value kw0)) as [shown | e];
    [ | left; reflexivity ].
  destruct (dict_comp fst snd options) as [opt | e]; [ | left; reflexivity ].
  right. exists opt. reflexivity.
Qed.

Lemma widget_state (G : list string)
      (named_objs : dict -> result (list (Value * Value)))
      (p_name : string) (self : Self) :
  snd (widget G named_objs p_name self) = self
  \/ exists d,
       snd (widget G named_objs p_name self)
       = set_widget_options self
           (store (_widget_options self) (VStr p_name) (VDict d)).
Proof.
  remember (snd (widget G named_objs p_name self)) as s' eqn:Hs'.
  unfold widget, bindM at 1, lift at 1 in Hs'.
  destruct (params_of (object self) p_name) as [p_obj | e];
    [ | left; exact Hs' ].
  unfold bindM at 1, lift at 1 in Hs'.
  destruct (mapping_get (ptype p_obj)) as [c | e]; [ | left; exact Hs' ].
  unfold bindM at 1, lift at 1 in Hs'.
  destruct (getattr (object self) p_name) as [v | e];
    [ | left; exact Hs' ].
  unfold bindM at 1 in Hs'. cbn [kw_value] in Hs'.
  assert (Hrest :
            forall (kw1 : Kw) (s1 : Self),
              snd ((_ <~ lift (resolve G "partial") ;;
                    ret {| widget_class := c;
                           kw := match get_soft_bounds p_obj with
                                 | Some b => set_kw_bounds kw1 b
                                 | None => kw1
                                 end;
                           watchers :=
                             [("value", "value",
                               partial_apply_change p_name)] |}) s1)
              = s1).
  { intros kw1 s1. unfold bindM, lift, ret.
    destruct (resolve G "partial"); reflexivity. }
  destruct (get_range p_obj) as [items | ].
  - destruct (negb (is_dict v)).
    + match type of Hs' with
      | context [range_branch G named_objs p_name p_obj items ?k self] =>
          pose proof (range_branch_frame G named_objs p_name p_obj items
                        k self) as Hf;
          destruct (range_branch G named_objs p_name p_obj items k self)
            as [[kw1 | e] s1]
      end; simpl in Hf.
      * rewrite Hrest in Hs'. subst s'. exact Hf.
      * simpl in Hs'. subst s'. exact Hf.
    + unfold ret at 1 in Hs'. rewrite Hrest in Hs'. left. exact Hs'.
  - unfold ret at 1 in Hs'. rewrite Hrest in Hs'. left. exact Hs'.
Qed.

(** Whatever it returns or raises, in any namespace, [widget] leaves the
    object and the parameters of the panel as they were, and in the cache
    of option lookups it leaves the entry of every other attribute as it
    was. *)
Theorem widget_frame (G : list string)
        (named_objs : dict -> result (list (Value * Value)))
        (p_name : string) (self : Self) :
  let self' := snd (widget G named_objs p_name self) in
  object self' = object self
  /\ show_labels self' = show_labels self
  /\ display_threshold self' = display_threshold self
  /\ default_precedence self' = default_precedence self
  /\ width self' = width self
  /\ label_formatter self' = label_formatter self
  /\ forall q, q <> p_name ->
               dict_get (_widget_options self') (VStr q)
               = dict_get (_widget_options self) (VStr q).
Proof.
  cbv zeta.
  destruct (widget_state G named_objs p_name self) as [-> | [d ->]].
  - repeat split.
  - repeat split. intros q Hq. unfold dict_get.
    cbn [hashable _widget_options set_widget_options].
    rewrite find_key_store. cbn [py_eq].
    destruct (String.eqb_spec p_name q); [ congruence | reflexivity ].
Qed.

Lemma range_branch_module
      (named_objs : dict -> result (list (Value * Value)))
      (p_name : string) (p_obj : ParameterObj) (items : dict) (kw0 : Kw)
      (self : Self) :
  range_branch module_names named_objs p_name p_obj items kw0 self
  = (Raise (NameError "named_objs"), self).
Proof. reflexivity. Qed.

Lemma widget_module_state
      (named_objs : dict -> result (list (Value * Value)))
      (p_name : string) (self : Self) :
  snd (widget module_names named_objs p_name self) = self.
Proof.
  unfold widget, bindM, lift, ret.
  destruct (params_of (object self) p_name) as [p_obj | e];
    [ | reflexivity ].
  destruct (mapping_get (ptype p_obj)) as [c | e]; [ | reflexivity ].
  destruct (getattr (object self) p_name) as [v | e]; [ | reflexivity ].
  cbn [kw_value].
  destruct (get_range p_obj) as [items | ]; [ | reflexivity ].
  destruct (negb (is_dict v)); reflexivity.
Qed.

Lemma mapMS_state {S A B} (f : A -> M S B) (l : list A) :
  (forall x s, snd (f x s) = s) ->
  forall s, snd (mapMS f l s) = s.
Proof.
  intros Hf. induction l as [ | x xs IH]; intros s; simpl.
  - reflexivity.
  - unfold bindM, ret. specialize (Hf x s).
    destruct (f x s) as [[y | e] s1]; simpl in Hf; subst s1;
      [ | reflexivity ].
    specialize (IH s).
    destruct (mapMS f xs s) as [[ys | e] s2]; simpl in IH; subst s2;
      reflexivity.
Qed.

(** In the module as written the panel is never modified: whatever they
    return or raise, [widget] and [_get_widgets] leave the whole panel, the
    cache of option lookups included, as it was (the store of line 85 is
    behind the unbound name of line 75). *)
Theorem module_never_writes
        (named_objs : dict -> result (list (Value * Value)))
        (self : Self) :
  (forall p_name, snd (widget module_names named_objs p_name self) = self)
  /\ snd (_get_widgets module_names named_objs self) = self.
Proof.
  split.
  - intros p_name. apply widget_module_state.
  - unfold _get_widgets, bindM, lift, ret. simpl resolve.
    destruct (list_index (ordered_params self) "name") as [i | e];
      [ | reflexivity ].
    destruct (getattr (object self) "name") as [v | e]; [ | reflexivity ].
    pose proof (mapMS_state (widget module_names named_objs)
                  (list_pop (ordered_params self) i)
                  (widget_module_state named_objs) self) as Hs.
    destruct (mapMS (widget module_names named_objs)
                    (list_pop (ordered_params self) i) self)
      as [[ws | e] s1]; simpl in Hs; subst s1; reflexivity.
Qed.

(** ** When _get_widgets returns and what it raises *)

Lemma widget_module_ok
      (named_objs : dict -> result (list (Value * Value)))
      (p_name : string) (self self' : Self) (w : Widget) :
  widget module_names named_objs p_name self = (Ok w, self') ->
  exists p_obj c v,
    params_of (object self) p_name = Ok p_obj
    /\ _mapping (ptype p_obj) = Some c
    /\ getattr (object self) p_name = Ok v
    /\ (get_range p_obj = None \/ is_dict v = true).
Proof.
  unfold widget, bindM, lift, ret, mapping_get.
  destruct (params_of (object self) p_name) as [p_obj | e];
    [ | discriminate ].
  destruct (_mapping (ptype p_obj)) as [c | ] eqn:Hm; [ | discriminate ].
  destruct (getattr (object self) p_name) as [v | e]; [ | discriminate ].
  cbn [kw_value]. intros H. exists p_obj, c, v.
  repeat split; try assumption.
  destruct (get_range p_obj) as [items | ]; [ | left; reflexivity ].
  destruct (is_dict v); [ right; reflexivity | ].
  cbn in H. discriminate H.
Qed.

Lemma mapMS_Ok_inv {S A B} (f : A -> M S B) (l : list A) :
  (forall x s, snd (f x s) = s) ->
  forall s s' ys,
    mapMS f l s = (Ok ys, s') ->
    forall x, In x l -> exists y, f x s = (Ok y, s).
Proof.
  intros Hf. induction l as [ | a l IH]; intros s s' ys H x Hx.
  - contradiction.
  - simpl in H. unfold bindM, ret in H.
    pose proof (Hf a s) as Ha.
    destruct (f a s) as [[y | e] s1] eqn:Efa; simpl in Ha; subst s1;
      [ | discriminate ].
    destruct (mapMS f l s) as [[ys' | e] s2] eqn:El; [ | discriminate ].
    destruct Hx as [<- | Hx]; [ eauto | ].
    eapply IH; eassumption.
Qed.

Lemma mapMS_length {S A B} (f : A -> M S B) (l : list A) :
  forall s s' ys,
    mapMS f l s = (Ok ys, s') -> List.length ys = List.length l.
Proof.
  induction l as [ | a l IH]; intros s s' ys H; simpl in H.
  - unfold ret in H. injection H as <- _. reflexivity.
  - unfold bindM, ret in H.
    destruct (f a s) as [[y | e] s1]; [ | discriminate ].
    destruct (mapMS f l s1) as [[ys' | e] s2] eqn:El; [ | discriminate ].
    injection H as <- _. simpl. f_equal. eapply IH. exact El.
Qed.

Lemma get_widgets_unfold
      (named_objs : dict -> result (list (Value * Value)))
      (self self' : Self) (out : list Item) :
  _get_widgets module_names named_objs self = (Ok out, self') ->
  exists i v ws,
    list_index (ordered_params self) "name" = Ok i
    /\ getattr (object self) "name" = Ok v
    /\ mapMS (widget module_names named_objs)
             (list_pop (ordered_params self) i) self = (Ok ws, self')
    /\ out = to_panel_Div (Text.format "<b>{0}</b>" v)
             :: map widget_item ws.
Proof.
  unfold _get_widgets, bindM, lift, ret. simpl resolve.
  destruct (list_index (ordered_params self) "name") as [i | e];
    [ | discriminate ].
  destruct (getattr (object self) "name") as [v | e]; [ | discriminate ].
  destruct (mapMS (widget module_names named_objs)
                  (list_pop (ordered_params self) i) self)
    as [[ws | e] s1] eqn:Hws; [ | discriminate ].
  intros H. injection H as Hout Hself. subst out self'.
  exists i, v, ws. repeat split; try reflexivity. exact Hws.
Qed.

Lemma list_index_In (l : list string) (x : string) (i : nat) :
  list_index l x = Ok i -> In x l.
Proof.
  revert i. induction l as [ | a l IH]; intros i H; simpl in *.
  - discriminate.
  - destruct (String.eqb_spec a x) as [-> | Hne]; [ left; reflexivity | ].
    destruct (list_index l x) as [j | e]; [ | discriminate ].
    right. eapply IH. reflexivity.
Qed.

Lemma list_index_absent (l : list string) (x : string) :
  ~ In x l ->
  list_index l x = Raise (ValueError ("'" ++ x ++ "' is not in list")).
Proof.
  induction l as [ | a l IH]; intros H; simpl.
  - reflexivity.
  - destruct (String.eqb_spec a x) as [-> | Hne].
    + exfalso. apply H. left. reflexivity.
    + rewrite IH; [ reflexivity | ]. intros Hin. apply H. right. exact Hin.
Qed.

Lemma list_index_pop_length (l : list string) (x : string) (i : nat) :
  list_index l x = Ok i -> S (List.length (list_pop l i)) = List.length l.
Proof.
  revert i. induction l as [ | a l IH]; intros i H; simpl in *.
  - discriminate.
  - destruct (String.eqb_spec a x) as [-> | Hne].
    + injection H as <-. reflexivity.
    + destruct (list_index l x) as [j | e]; [ | discriminate ].
      injection H as <-. simpl. f_equal. apply IH. reflexivity.
Qed.

Lemma ordered_params_name (self : Self) :
  In "name" (ordered_params self) ->
  exists p, In ("name", p) (params (object self))
            /\ displayed self ("name", p) = true.
Proof.
  unfold ordered_params. fold (ordered_pairs self). intros H.
  apply in_map_iff in H. destruct H as [[k p] [E H]]. simpl in E. subst k.
  apply ordered_pairs_In in H. eauto.
Qed.

(** In the module as written, [_get_widgets] returns exactly when [name]
    is displayed and has a value and every other displayed attribute has a
    kind with an entry in [_mapping], a value, and either no range or a
    dict for a value. *)
Theorem get_widgets_returns_iff
        (named_objs : dict -> result (list (Value * Value))) (self : Self) :
  NoDup (map fst (params (object self))) ->
  (exists out, _get_widgets module_names named_objs self = (Ok out, self))
  <-> ((exists p, In ("name", p) (params (object self))
                  /\ displayed self ("name", p) = true)
       /\ (exists v, getattr (object self) "name" = Ok v)
       /\ (forall k p, In (k, p) (params (object self)) -> k <> "name" ->
                       displayed self (k, p) = true ->
                       exists c v, _mapping (ptype p) = Some c
                                   /\ getattr (object self) k = Ok v
                                   /\ (get_range p = None
                                       \/ is_dict v = true))).
Proof.
  intros Hn. split.
  - intros [out H].
    destruct (get_widgets_unfold named_objs self self out H)
      as [i [v [ws [Hi [Hv [Hws _]]]]]].
    split; [ | split ].
    + apply ordered_params_name. eapply list_index_In. exact Hi.
    + eauto.
    + intros k p Hp Hne Hd.
      assert (Hk : In k (list_pop (ordered_params self) i)).
      { eapply list_index_pop_other; [ exact Hi | | exact Hne ].
        apply (ordered_params_In self Hn k p Hp). exact Hd. }
      destruct (mapMS_Ok_inv (widget module_names named_objs) _
                  (widget_module_state named_objs) _ _ _ Hws k Hk)
        as [w Hw].
      destruct (widget_module_ok named_objs k self self w Hw)
        as [p' [c [v' [Hp' [Hm [Hv' Hr]]]]]].
      unfold params_of in Hp'. rewrite (assoc_In _ _ _ Hn Hp) in Hp'.
      injection Hp' as <-. eauto.
  - intros [Hname [Hv Hall]].
    apply get_widgets_total; assumption.
Qed.

Lemma get_widgets_returns_iff_witness :
  (exists out,
      _get_widgets module_names named_objs_spec (panel_of obj_prec)
      = (Ok out, panel_of obj_prec))
  <-> ((exists p, In ("name", p) (params obj_prec)
                  /\ displayed (panel_of obj_prec) ("name", p) = true)
       /\ (exists v, getattr obj_prec "name" = Ok v)
       /\ (forall k p, In (k, p) (params obj_prec) -> k <> "name" ->
                       displayed (panel_of obj_prec) (k, p) = true ->
                       exists c v, _mapping (ptype p) = Some c
                                   /\ getattr obj_prec k = Ok v
                                   /\ (get_range p = None
                                       \/ is_dict v = true))).
Proof.
  apply (get_widgets_returns_iff named_objs_spec (panel_of obj_prec)).
  simpl. distinct_names.
Defined.

(** When [name] is not displayed (the object has no such parameter, or its
    declared precedence is below the threshold), [_get_widgets] raises the
    [ValueError] of [index] at line 113, whatever the other attributes
    are, and builds no widget. *)
Theorem get_widgets_without_name (G : list string)
        (named_objs : dict -> result (list (Value * Value))) (self : Self) :
  resolve G "itertools" = Ok tt ->
  (forall p, In ("name", p) (params (object self)) ->
             displayed self ("name", p) = false) ->
  _get_widgets G named_objs self
  = (Raise (ValueError "'name' is not in list"), self).
Proof.
  intros Hit Hhidden.
  unfold _get_widgets, bindM, lift. rewrite Hit.
  rewrite (list_index_absent (ordered_params self) "name"); [ reflexivity | ].
  intros Hin. destruct (ordered_params_name self Hin) as [p [Hp Hd]].
  rewrite (Hhidden p Hp) in Hd. discriminate.
Qed.

Lemma get_widgets_without_name_witness :
  _get_widgets module_names named_objs_spec
    (panel_of (with_values
                 {| is_type := false; class_name := "Hidden";
                    params := [("name",
                                plain (OtherType "String") (Some (-1 # 1)));
                               ("level", with_items Selector None low_high)];
                    values := []; set_check := accept_all |}
                 [("name", VStr "Hidden00001"); ("level", VInt 2)]))
  = (Raise (ValueError "'name' is not in list"),
     panel_of (with_values
                 {| is_type := false; class_name := "Hidden";
                    params := [("name",
                                plain (OtherType "String") (Some (-1 # 1)));
                               ("level", with_items Selector None low_high)];
                    values := []; set_check := accept_all |}
                 [("name", VStr "Hidden00001"); ("level", VInt 2)])).
Proof.
  apply get_widgets_without_name; [ reflexivity | ].
  intros p [E | [E | []]]; [ | discriminate E ].
  injection E as <-. reflexivity.
Defined.

(** A returned list has one item per displayed parameter (the heading
    stands for [name]), and no two of its controls are bound to the same
    attribute. *)
Theorem get_widgets_count
        (named_objs : dict -> result (list (Value * Value)))
        (self self' : Self) (out : list Item) :
  NoDup (map fst (params (object self))) ->
  _get_widgets module_names named_objs self = (Ok out, self') ->
  List.length out
  = List.length (filter (displayed self) (params (object self)))
  /\ NoDup (control_names out).
Proof.
  intros Hn H. split.
  - destruct (get_widgets_unfold named_objs self self' out H)
      as [i [v [ws [Hi [_ [Hws ->]]]]]].
    simpl. rewrite length_map, (mapMS_length _ _ _ _ _ Hws).
    rewrite (list_index_pop_length _ _ _ Hi).
    unfold ordered_params. fold (ordered_pairs self). rewrite length_map.
    rewrite (Permutation_length (ordered_pairs_perm self)).
    unfold filtered, sorted_precedence.
    apply Permutation_length, Permutation_filter_same, sorted_perm.
  - destruct (controls_shown named_objs self Hn self' out H)
      as [shown [Hnames [Hin Hs]]].
    rewrite Hnames.
    destruct (get_widgets_returns named_objs self self' out H)
      as [i [_ [_ [Hi [_ [_ Hc]]]]]].
    rewrite <- Hnames, Hc.
    clear - Hi Hn.
    assert (Hnd : NoDup (ordered_params self)).
    { unfold ordered_params. fold (ordered_pairs self).
      apply ordered_pairs_NoDup. exact Hn. }
    revert i Hi Hnd. generalize (ordered_params self). intros l.
    induction l as [ | a l IH]; intros i Hi Hnd; simpl in *.
    + discriminate.
    + apply NoDup_cons_iff in Hnd. destruct Hnd as [Hnot Hnd].
      destruct (String.eqb a "name").
      * injection Hi as <-. exact Hnd.
      * destruct (list_index l "name") as [j | e]; [ | discriminate ].
        injection Hi as <-. simpl. constructor.
        -- intros Hin. apply Hnot. eapply list_pop_In. exact Hin.
        -- apply (IH j eq_refl Hnd).
Qed.

Lemma get_widgets_count_witness :
  List.length out_prec
  = List.length (filter (displayed (panel_of obj_prec)) (params obj_prec))
  /\ NoDup (control_names out_prec).
Proof.
  apply (get_widgets_count named_objs_spec (panel_of obj_prec)
           (panel_of obj_prec) out_prec).
  - simpl. distinct_names.
  - vm_compute. reflexivity.
Defined.

(** ** show_labels, width, and the model of the panel *)

Import Render.

Lemma widget_layout (G : list string)
      (named_objs : dict -> result (list (Value * Value)))
      (p_name : string) (self : Self) (labels : bool) (w : Z) :
  widget G named_objs p_name (with_layout self labels w)
  = (fst (widget G named_objs p_name self),
     with_layout (snd (widget G named_objs p_name self)) labels w).
Proof.
  unfold widget, range_branch, bindM, lift, ret.
  cbn [object label_formatter _widget_options with_layout].
  destruct (params_of (object self) p_name) as [p_obj | e];
    [ | reflexivity ].
  destruct (mapping_get (ptype p_obj)) as [c | e]; [ | reflexivity ].
  destruct (getattr (object self) p_name) as [v | e]; [ | reflexivity ].
  cbn [kw_value].
  destruct (get_range p_obj) as [items | ].
  - destruct (negb (is_dict v)).
    + destruct (resolve G "named_objs"); [ | reflexivity ].
      destruct (named_objs items) as [options | e]; [ | reflexivity ].
      destruct (lookup_of options) as [lookup | e]; [ | reflexivity ].
      destruct (shown_value G p_obj lookup v) as [shown | e];
        [ | reflexivity ].
      destruct (dict_comp fst snd options) as [opt | e]; [ | reflexivity ].
      cbn. destruct (resolve G "partial"); reflexivity.
    + destruct (resolve G "partial"); reflexivity.
  - destruct (resolve G "partial"); reflexivity.
Qed.

Lemma mapMS_layout (G : list string)
      (named_objs : dict -> result (list (Value * Value)))
      (l : list string) (labels : bool) (w : Z) :
  forall self,
    mapMS (widget G named_objs) l (with_layout self labels w)
    = (fst (mapMS (widget G named_objs) l self),
       with_layout (snd (mapMS (widget G named_objs) l self)) labels w).
Proof.
  induction l as [ | x xs IH]; intros self; simpl.
  - reflexivity.
  - unfold bindM at 1 3 5. rewrite widget_layout.
    destruct (widget G named_objs x self) as [[y | e] s1]; simpl;
      [ | reflexivity ].
    unfold bindM, ret. rewrite IH.
    destruct (mapMS (widget G named_objs) xs s1) as [[ys | e] s2];
      reflexivity.
Qed.

Lemma get_widgets_layout (G : list string)
      (named_objs : dict -> result (list (Value * Value)))
      (self : Self) (labels : bool) (w : Z) :
  _get_widgets G named_objs (with_layout self labels w)
  = (fst (_get_widgets G named_objs self),
     with_layout (snd (_get_widgets G named_objs self)) labels w).
Proof.
  unfold _get_widgets, bindM, lift, ret.
  change (ordered_params (with_layout self labels w))
    with (ordered_params self).
  cbn [object with_layout].
  destruct (resolve G "itertools"); [ | reflexivity ].
  destruct (list_index (ordered_params self) "name") as [i | e];
    [ | reflexivity ].
  destruct (resolve G "Panel"); [ | reflexivity ].
  destruct (resolve G "Div"); [ | reflexivity ].
  destruct (getattr (object self) "name") as [v | e]; [ | reflexivity ].
  rewrite mapMS_layout.
  destruct (mapMS (widget G named_objs)
                  (list_pop (ordered_params self) i) self)
    as [[ws | e] s1]; reflexivity.
Qed.

Section RenderFacts.
Variable Handle : Type.
Variable Model : Type.
Variable box_get_model :
  list Item -> Handle -> option Handle -> option Handle -> option Handle ->
  result Model.
Variable G : list string.
Variable named_objs : dict -> result (list (Value * Value)).

(** The parameters [show_labels] and [width] of the panel have no effect:
    with any other values of the two, [_get_widgets] returns the same items
    or raises the same error, and so does [_get_root], whose box is built
    from the items alone; they come back unchanged in the panel. *)
Theorem layout_is_ignored (self : Self) (labels : bool) (w : Z)
        (doc : Handle) (comm : option Handle) :
  fst (_get_widgets G named_objs (with_layout self labels w))
  = fst (_get_widgets G named_objs self)
  /\ fst (_get_root Handle Model box_get_model G named_objs doc comm
                    (with_layout self labels w))
     = fst (_get_root Handle Model box_get_model G named_objs doc comm self)
  /\ show_labels (snd (_get_widgets G named_objs
                                    (with_layout self labels w))) = labels
  /\ width (snd (_get_widgets G named_objs (with_layout self labels w)))
     = w.
Proof.
  rewrite get_widgets_layout. cbn [fst snd show_labels width with_layout].
  split; [ reflexivity | ]. split; [ | split; reflexivity ].
  unfold _get_root, _get_model, bindM, lift.
  rewrite get_widgets_layout.
  destruct (_get_widgets G named_objs self) as [[out | e] s1]; cbn;
    [ | reflexivity ].
  destruct (resolve G "WidgetBox"); reflexivity.
Qed.

(** [_get_root] is [_get_model] without root and parent.  When
    [_get_widgets] raises, both raise the same error and the box is never
    built; when it returns, the answer is that of the box built from the
    returned items; the panel is left as [_get_widgets] leaves it. *)
Theorem get_root_follows (self : Self) (doc : Handle)
        (comm : option Handle) :
  resolve G "WidgetBox" = Ok tt ->
  _get_root Handle Model box_get_model G named_objs doc comm self
  = _get_model Handle Model box_get_model G named_objs doc None None comm
               self
  /\ _get_root Handle Model box_get_model G named_objs doc comm self
     = (match fst (_get_widgets G named_objs self) with
        | Ok out => box_get_model out doc None None comm
        | Raise e => Raise e
        end, snd (_get_widgets G named_objs self)).
Proof.
  intros Hbox. split; [ reflexivity | ].
  unfold _get_root, _get_model, bindM, lift.
  destruct (_get_widgets G named_objs self) as [[out | e] s1]; cbn;
    [ | reflexivity ].
  rewrite Hbox. reflexivity.
Qed.
End RenderFacts.

Lemma get_root_follows_witness :
  _get_root unit nat (fun out _ _ _ _ => Ok (List.length out))
            module_names named_objs_spec tt None (panel_of obj_prec)
  = (Ok 4%nat, panel_of obj_prec).
Proof.
  destruct (get_root_follows unit nat
              (fun out _ _ _ _ => Ok (List.length out))
              module_names named_objs_spec (panel_of obj_prec) tt None
              eq_refl) as [_ H].
  rewrite H. vm_compute. reflexivity.
Defined.

(** ** The relay, then the factory *)

(** After the relay has stored a new value for an attribute of a mapped
    kind without a range, the control that [widget] builds for it carries
    that new value. *)
Theorem relay_then_widget (G : list string)
        (named_objs : dict -> result (list (Value * Value)))
        (self self1 : Self) (p_name : string) (p_obj : ParameterObj)
        (c : WidgetClass) (change : Change) :
  resolve G "partial" = Ok tt ->
  params_of (object self) p_name = Ok p_obj ->
  _mapping (ptype p_obj) = Some c ->
  get_range p_obj = None ->
  _apply_change p_name change self = (Ok tt, self1) ->
  widget G named_objs p_name self1
  = (Ok (built self1 p_name p_obj c (new change) None), self1).
Proof.
  intros Hpartial Hp Hm Hr Hrelay.
  unfold _apply_change, setattr in Hrelay.
  destruct (set_check (object self) p_name (new change)) as [e | ];
    [ discriminate | ].
  injection Hrelay as <-.
  apply widget_no_options; try assumption.
  - unfold getattr. cbn. rewrite assoc_set_same. reflexivity.
  - left. exact Hr.
Qed.

Lemma relay_then_widget_witness :
  exists self1,
    _apply_change "x" {| new := VInt 7 |} (panel_of obj_bounded)
    = (Ok tt, self1)
    /\ widget module_names named_objs_spec "x" self1
       = (Ok {| widget_class := FloatSlider;
                kw := {| kw_value := VInt 7; kw_name := "x";
                         kw_options := None;
                         kw_start := Some (VInt 0);
                         kw_end := Some (VInt 10) |};
                watchers :=
                  [("value", "value", partial_apply_change "x")] |},
          self1).
Proof.
  eexists. split; [ reflexivity | ].
  apply (relay_then_widget module_names named_objs_spec
           (panel_of obj_bounded) _ "x" _ FloatSlider {| new := VInt 7 |}
           eq_refl eq_refl eq_refl eq_refl eq_refl).
Defined.

(** ** Which control comes first *)




(** [widget] on a panel whose cache already has an entry for another
    attribute: the object and that entry are as before. *)
Lemma widget_frame_witness :
  let self := set_widget_options (panel_of obj_level)
                [(VStr "other", VDict two_labels)] in
  let self' := snd (widget completed_names named_objs_spec "level" self) in
  object self' = obj_level
  /\ dict_get (_widget_options self') (VStr "other")
     = Ok (VDict two_labels)
  /\ dict_get (_widget_options self') (VStr "level")
     = Ok (VDict low_high).
Proof.
  cbv zeta.
  destruct (widget_frame completed_names named_objs_spec "level"
              (set_widget_options (panel_of obj_level)
                 [(VStr "other", VDict two_labels)]))
    as [Hobj [_ [_ [_ [_ [_ Hother]]]]]].
  split; [ exact Hobj | ].
  split; [ | reflexivity ].
  rewrite (Hother "other"); [ reflexivity | discriminate ].
Defined.
